(** * RAS Monitoring frontend: shallow embedding of the client-side
    sensor-data handling, route guards, HTTP interceptor and exports. *)

From Stdlib Require Import String List ZArith QArith Bool Lia.
From Stdlib Require Import Sorting.Sorted Sorting.Permutation.
Import ListNotations.
Open Scope string_scope.

(** ** Data model (interfaces of [SensorData.tsx] / [DeviceDashboard.tsx]) *)

Inductive AlertLevel := Normal | Warning | Critical.

(** [device: string | Device]: either the device id or a populated device
    object, of which only [_id] matters here. *)
Inductive DeviceRef :=
| DevId (id : string)
| DevObj (id : string).

(** [timestamp] is kept as the result of [new Date(timestamp).getTime()]
    (milliseconds since the epoch); [value] is a JS number, modelled as Q. *)
Record SensorReading := {
  r_id : string;
  device : DeviceRef;
  timestamp : Z;
  sensorType : string;
  value : Q;
  unit : string;
  isAlert : bool;
  alertLevel : option AlertLevel;
  alertMessage : option string
}.

(** [SensorThreshold] (the numeric part used by the pages). *)
Record SensorThreshold := {
  idealMin : Q; idealMax : Q;
  warningMin : Q; warningMax : Q;
  criticalMin : Q; criticalMax : Q
}.

(** JS [<] on numbers. *)
Definition qlt (a b : Q) : bool := negb (Qle_bool b a).

(** ** Alert classification *)

Module SensorDataPage.

(** [getAlertLevel] inside [prepareChartData] of [SensorData.tsx]
    ([thresholds] is [null] or a threshold record; the debug log is
    omitted). *)
Definition getAlertLevel (thresholds : option SensorThreshold)
    (reading : SensorReading) : AlertLevel :=
  match thresholds with
  | Some t =>
      let v := value reading in
      if qlt v (criticalMin t) || qlt (criticalMax t) v then Critical
      else if qlt v (warningMin t) || qlt (warningMax t) v then Warning
      else Normal
  | None =>
      match alertLevel reading with
      | Some l => l
      | None => Normal
      end
  end.

End SensorDataPage.

Module DeviceDashboardPage.

(** [getAlertLevel] inside [renderSensorCard] of [DeviceDashboard.tsx]. *)
Definition getAlertLevel (threshold : option SensorThreshold)
    (reading : SensorReading) : AlertLevel :=
  match threshold with
  | Some t =>
      let v := value reading in
      if qlt v (criticalMin t) || qlt (criticalMax t) v then Critical
      else if qlt v (warningMin t) || qlt (warningMax t) v then Warning
      else Normal
  | None =>
      match alertLevel reading with
      | Some l => l
      | None => Normal
      end
  end.

End DeviceDashboardPage.

(** Specification of the classification, as the claim states it. *)
Definition classifies (f : option SensorThreshold -> SensorReading -> AlertLevel)
  : Prop :=
  (forall t r,
     let v := value r in
     (f (Some t) r = Critical <->
        (v < criticalMin t \/ criticalMax t < v)%Q) /\
     (f (Some t) r = Warning <->
        ~ (v < criticalMin t \/ criticalMax t < v)%Q /\
        (v < warningMin t \/ warningMax t < v)%Q) /\
     (f (Some t) r = Normal <->
        ~ (v < criticalMin t \/ criticalMax t < v)%Q /\
        ~ (v < warningMin t \/ warningMax t < v)%Q)) /\
  (forall r, f None r = match alertLevel r with Some l => l | None => Normal end).

(** ** Sorting by timestamp

    [arr.sort((a, b) => new Date(a.timestamp).getTime() -
                        new Date(b.timestamp).getTime())]: the comparator is
    consistent on valid dates, and [Array.prototype.sort] is stable, so the
    result is the unique stable sort by timestamp, computed here by
    insertion. *)
Fixpoint insert_ts (x : SensorReading) (l : list SensorReading)
  : list SensorReading :=
  match l with
  | [] => [x]
  | y :: l' =>
      if (timestamp x <=? timestamp y)%Z then x :: y :: l'
      else y :: insert_ts x l'
  end.

Fixpoint sort_ts (l : list SensorReading) : list SensorReading :=
  match l with
  | [] => []
  | x :: l' => insert_ts x (sort_ts l')
  end.

(** Non-decreasing by timestamp. *)
Definition ts_le (a b : SensorReading) : Prop := (timestamp a <= timestamp b)%Z.

(** [(typeof r.device === 'string' && r.device === id) ||
     (typeof r.device === 'object' && r.device._id === id)] *)
Definition deviceIs (id : string) (r : SensorReading) : bool :=
  match device r with
  | DevId d => String.eqb d id
  | DevObj d => String.eqb d id
  end.

(** [Record<string, SensorReading[]>] as an association list; [{...m, [k]: v}]
    overwrites the entry of [k] in place or appends a new one. *)
Definition SensorMap := list (string * list SensorReading).

Fixpoint rec_get (k : string) (m : SensorMap) : option (list SensorReading) :=
  match m with
  | [] => None
  | (k', v) :: m' => if String.eqb k k' then Some v else rec_get k m'
  end.

Fixpoint rec_set (k : string) (v : list SensorReading) (m : SensorMap) : SensorMap :=
  match m with
  | [] => [(k, v)]
  | (k', v') :: m' =>
      if String.eqb k k' then (k, v) :: m' else (k', v') :: rec_set k v m'
  end.

Module DeviceDashboardStream.

(** The per-sensor-type update inside [handleNewSensorData]:
    append, sort by timestamp, and [shift()] when over 100. *)
Definition insertReading (prev : list SensorReading) (r : SensorReading)
  : list SensorReading :=
  let updatedReadings := sort_ts (prev ++ [r])%list in
  if (100 <? length updatedReadings)%nat then tl updatedReadings
  else updatedReadings.

(** [handleNewSensorData] of [DeviceDashboard.tsx], acting on the
    [sensorData] state ([id] is the route's device id).  The chart refresh
    and the summary recomputation it also performs do not touch this state. *)
Definition handleNewSensorData (id : string) (prevData : SensorMap)
    (newReading : SensorReading) : SensorMap :=
  if deviceIs id newReading then
    match rec_get (sensorType newReading) prevData with
    | None => prevData
    | Some readings =>
        rec_set (sensorType newReading) (insertReading readings newReading) prevData
    end
  else prevData.

Definition run (id : string) (evs : list SensorReading) (m : SensorMap) : SensorMap :=
  fold_left (handleNewSensorData id) evs m.

End DeviceDashboardStream.

(** Chart.js data of one chart: [labels] and [datasets[0].data]. *)
Record ChartBuf := { labels : list string; data : list Q }.

Module SensorDataStream.

Section WithLocale.
(** [toLocaleTimeString([], {hour: '2-digit', minute: '2-digit'})] of the
    host's locale. *)
Variable toLocaleTimeString : Z -> string.

(** Page state touched by the handler: [sensorData] and the chart held in
    [chartRefs.current[selectedSensorType]] (absent when no chart is
    mounted). *)
Record PageState := { sensorData : list SensorReading; chart : option ChartBuf }.

(** [setSensorData(prev => [...prev, newReading].sort(...))] *)
Definition insertReading (prev : list SensorReading) (r : SensorReading)
  : list SensorReading :=
  sort_ts (prev ++ [r])%list.

(** Direct chart update: push label and value, shift both when the labels
    exceed 100. *)
Definition pushPoint (c : ChartBuf) (r : SensorReading) : ChartBuf :=
  let ls := (labels c ++ [toLocaleTimeString (timestamp r)])%list in
  let ds := (data c ++ [value r])%list in
  if (100 <? length ls)%nat then {| labels := tl ls; data := tl ds |}
  else {| labels := ls; data := ds |}.

(** [handleNewSensorData] of [SensorData.tsx]. *)
Definition handleNewSensorData (selectedDevice selectedSensorType : string)
    (st : PageState) (newReading : SensorReading) : PageState :=
  if deviceIs selectedDevice newReading then
    if String.eqb (sensorType newReading) selectedSensorType then
      {| sensorData := insertReading (sensorData st) newReading;
         chart := match chart st with
                  | Some c => Some (pushPoint c newReading)
                  | None => None
                  end |}
    else st
  else st.

Definition run (dev ty : string) (evs : list SensorReading) (st : PageState)
  : PageState :=
  fold_left (handleNewSensorData dev ty) evs st.

End WithLocale.

End SensorDataStream.

Module DashboardStream.

(** [interface SensorData] of the Dashboard component. *)
Record DashReading := {
  d_id : string;
  d_device : string;
  d_project : string;
  d_timestamp : Z;
  d_sensorType : string;
  d_value : Q;
  d_unit : string;
  d_isAlert : bool
}.

(** [arr.slice(-n)] *)
Definition slice_last {A} (n : nat) (l : list A) : list A :=
  skipn (length l - n) l.

(** The ['new-sensor-data'] listener of the Dashboard component. *)
Definition onNewSensorData (prev : list DashReading) (d : DashReading)
  : list DashReading :=
  let filtered := filter (fun item =>
      negb (String.eqb (d_device item) (d_device d) &&
            String.eqb (d_sensorType item) (d_sensorType d))) prev in
  slice_last 50 (filtered ++ [d])%list.

Definition run (evs : list DashReading) (l : list DashReading) : list DashReading :=
  fold_left onNewSensorData evs l.

(** Number of entries for a (device, sensorType) pair. *)
Definition pair_count (dev ty : string) (l : list DashReading) : nat :=
  length (filter (fun item => String.eqb (d_device item) dev &&
                              String.eqb (d_sensorType item) ty) l).

End DashboardStream.

(** ** Authentication context and route guards *)

Module Auth.

Record User := {
  u_id : string; name : string; email : string; role : string;
  projects : list string; token : string
}.

(** The parts of [AuthContextType] read by the guards. *)
Record AuthState := { user : option User; loading : bool }.

(** [isAuthenticated = !!user] *)
Definition isAuthenticated (a : AuthState) : bool :=
  match user a with Some _ => true | None => false end.

(** [isSuperAdmin = user?.role === 'superadmin'] *)
Definition isSuperAdmin (a : AuthState) : bool :=
  match user a with Some u => String.eqb (role u) "superadmin" | None => false end.

(** [isAdmin = user?.role === 'superadmin' || user?.role === 'projectadmin'] *)
Definition isAdmin (a : AuthState) : bool :=
  match user a with
  | Some u => String.eqb (role u) "superadmin" || String.eqb (role u) "projectadmin"
  | None => false
  end.

Inductive Rendered :=
| LoadingView
| Children
| Navigate (to : string).

(** [AdminRoute] *)
Definition AdminRoute (a : AuthState) : Rendered :=
  if loading a then LoadingView
  else if negb (isAuthenticated a) then Navigate "/login"
  else if isAdmin a then Children else Navigate "/".

(** [SuperAdminRoute] *)
Definition SuperAdminRoute (a : AuthState) : Rendered :=
  if loading a then LoadingView
  else if negb (isAuthenticated a) then Navigate "/login"
  else if isSuperAdmin a then Children else Navigate "/".

(** The provider's state before its mount effect has run. *)
Definition initialState : AuthState := {| user := None; loading := true |}.

End Auth.

(** ** Axios response interceptor *)

Module Http.

(** [error.config]: the request config object; [_retry] is the flag the
    interceptor sets on it.  Axios always attaches the config to response
    errors. *)
Record RequestConfig := { url : string; retry : bool }.

(** An axios error: [error.response?.status] and [error.config]. *)
Record AxiosError := { status : option Z; config : RequestConfig }.

(** The browser state touched: [localStorage] and [window.location.href]. *)
Record Browser := { storage : list (string * string); href : string }.

Definition getItem (k : string) (s : list (string * string)) : option string :=
  match find (fun p => String.eqb (fst p) k) s with
  | Some (_, v) => Some v
  | None => None
  end.

Definition removeItem (k : string) (s : list (string * string)) :=
  filter (fun p => negb (String.eqb (fst p) k)) s.

(** Outcome of the error handler: it always returns [Promise.reject(x)]. *)
Inductive Settled := Rejected (e : AxiosError).

(** The error branch of [axiosInstance.interceptors.response.use].  Setting
    [originalRequest._retry = true] mutates the config object the error
    refers to, so the rejected error carries the marked config. *)
Definition onResponseError (b : Browser) (error : AxiosError) : Browser * Settled :=
  let originalRequest := config error in
  let is401 := match status error with Some s => Z.eqb s 401 | None => false end in
  if is401 && negb (retry originalRequest) then
    let originalRequest' := {| url := url originalRequest; retry := true |} in
    let error' := {| status := status error; config := originalRequest' |} in
    ({| storage := removeItem "user" (storage b); href := "/login" |}, Rejected error')
  else (b, Rejected error).

End Http.

(** ** Threshold editing *)

Module Thresholds.

Record ThresholdValues := {
  tv_idealMin : Q; tv_idealMax : Q; tv_warningMin : Q; tv_warningMax : Q;
  tv_criticalMin : Q; tv_criticalMax : Q; tv_unit : string
}.

(** Calls made to [thresholdService] (the service module itself is not part
    of the sources; the model stops at its interface). *)
Inductive ServiceCall :=
| UpdateDeviceThreshold (deviceId sensorType : string) (values : option ThresholdValues)
| DeleteDeviceThreshold (deviceId sensorType : string)
| UpdateDefaultThreshold (id : option string) (sensorType : string) (values : ThresholdValues)
| DeleteThreshold (id : string).

(** State of the [DeviceThresholds] component. *)
Record DeviceThresholdsState := {
  deviceId : string;
  selectedSensorType : string;
  deviceThresholds : list (string * ThresholdValues)
}.

Definition lookupValues (k : string) (m : list (string * ThresholdValues)) :=
  match find (fun p => String.eqb (fst p) k) m with
  | Some (_, v) => Some v
  | None => None
  end.

(** [handleSaveThreshold]: [{sensorType, ...deviceThresholds[sensorType]}]
    handed to [updateDeviceThreshold]. *)
Definition handleSaveThreshold (st : DeviceThresholdsState) : list ServiceCall :=
  if String.eqb (selectedSensorType st) "" then []
  else [UpdateDeviceThreshold (deviceId st) (selectedSensorType st)
          (lookupValues (selectedSensorType st) (deviceThresholds st))].

(** [handleDeleteThreshold] *)
Definition handleDeleteThreshold (st : DeviceThresholdsState) : list ServiceCall :=
  if String.eqb (selectedSensorType st) "" then []
  else [DeleteDeviceThreshold (deviceId st) (selectedSensorType st)].

(** State of the [ThresholdManagement] component. *)
Record FormThreshold := { f_id : option string; f_sensorType : string; f_values : ThresholdValues }.





End Thresholds.

(** ** Dashboard data loading and socket options *)

Module DashboardFetch.

(** What the Dashboard does between renders: [retryCount] state, the pending
    [setTimeout], how many times [fetchDashboardData] has been started (once
    on mount, then once per change of [retryCount], its effect dependency),
    the delays passed to [setTimeout] and the error toasts shown. *)
Record State := {
  retryCount : nat;
  timer : option Z;
  fetchCount : nat;
  delays : list Z;
  toasts : list string
}.

Inductive Event :=
| FetchSucceeded
| FetchFailed
| TimerFired.

Definition initial : State :=
  {| retryCount := 0; timer := None; fetchCount := 1; delays := []; toasts := [] |}.

Definition giveUpMessage : string :=
  "Failed to load dashboard data after multiple attempts. Please refresh the page.".

Definition step (st : State) (ev : Event) : State :=
  match ev with
  | FetchSucceeded => st
  | FetchFailed =>
      (* if (retryCount < 3) setTimeout(..., Math.pow(2, retryCount) * 1000) *)
      if (retryCount st <? 3)%nat then
        let t := (2 ^ Z.of_nat (retryCount st) * 1000)%Z in
        {| retryCount := retryCount st; timer := Some t; fetchCount := fetchCount st;
           delays := (delays st ++ [t])%list; toasts := toasts st |}
      else
        {| retryCount := retryCount st; timer := timer st; fetchCount := fetchCount st;
           delays := delays st; toasts := (toasts st ++ [giveUpMessage])%list |}
  | TimerFired =>
      (* setRetryCount(prev => prev + 1) re-runs the fetching effect *)
      match timer st with
      | Some _ =>
          {| retryCount := S (retryCount st); timer := None; fetchCount := S (fetchCount st);
             delays := delays st; toasts := toasts st |}
      | None => st
      end
  end.

Definition run (evs : list Event) (st : State) : State := fold_left step evs st.

End DashboardFetch.

Module SocketConfig.

(** Reconnection-related options of a socket.io client; [None] for an option
    left out of the options object (the library default applies). *)
Record IoOptions := {
  autoConnect : option bool;
  reconnection : option bool;
  reconnectionAttempts : option Z;
  reconnectionDelay : option Z;
  reconnectionDelayMax : option Z;
  timeout : option Z
}.

(** The options passed to [io(API_URL, {...})] for the shared socket. *)
Definition socketOptions : IoOptions := {|
  autoConnect := Some false;
  reconnection := Some true;
  reconnectionAttempts := Some 5%Z;
  reconnectionDelay := Some 1000%Z;
  reconnectionDelayMax := Some 5000%Z;
  timeout := Some 20000%Z
|}.

End SocketConfig.

(** ** CSV export *)

Module CsvExport.

Section WithHost.
(** [new Date(ms).toLocaleString()], the number-to-string conversion done
    by [Array.prototype.join], and [new Date().toISOString().slice(0, 10)]. *)
Variable toLocaleString : Z -> string.
Variable numberToString : Q -> string.
Variable isoDate : string.

(** The [sensorData] state as a JS value: an array or something else. *)
Inductive JsValue :=
| JArray (l : list SensorReading)
| JNonArray.

Inductive ExportResult :=
| ToastError (msg : string)
| SaveAs (content : string) (filename : string).

Definition newline : string := String (Ascii.ascii_of_nat 10) EmptyString.

Definition csvHeader : list string :=
  ["Timestamp"; "Sensor Type"; "Value"; "Unit"; "Is Alert"; "Alert Message"].

Definition csvRow (reading : SensorReading) : list string :=
  [toLocaleString (timestamp reading);
   sensorType reading;
   numberToString (value reading);
   unit reading;
   if isAlert reading then "Yes" else "No";
   match alertMessage reading with Some m => m | None => "" end].

(** [exportToCSV] of [SensorData.tsx]. *)
Definition exportToCSV (selectedSensorType : string) (sensorData : JsValue) : ExportResult :=
  match sensorData with
  | JArray ((_ :: _) as l) =>
      let csvRows := map csvRow l in
      let csvContent :=
        String.concat newline
          (String.concat "," csvHeader :: map (String.concat ",") csvRows) in
      SaveAs csvContent ("sensor-data-" ++ selectedSensorType ++ "-" ++ isoDate ++ ".csv")
  | _ => ToastError "No data to export"
  end.

End WithHost.

End CsvExport.

(** ** Sensor-data request window of DeviceDashboard *)

Module FetchWindow.


Section WithZone.
(** Local time is UTC shifted by a fixed offset [off] (milliseconds). *)
Variable off : Z.





End WithZone.

(** Values of the time-range selector. *)
Definition timeRanges : list string := ["1h"; "6h"; "24h"; "7d"].

End FetchWindow.



(** ** Chart datasets and summaries *)

Module ChartSegments.

Definition alert_eqb (a b : AlertLevel) : bool :=
  match a, b with
  | Normal, Normal | Warning, Warning | Critical, Critical => true
  | _, _ => false
  end.

(** [values.map((value, index) => getAlertLevel(sortedData[index]) === lvl
    ? value : null)], with [values = sortedData.map(r => Number(r.value))]
    (a number stays itself under [Number], so the NaN fallback never
    applies). *)
Definition segment (getAlertLevel : SensorReading -> AlertLevel) (lvl : AlertLevel)
    (sortedData : list SensorReading) : list (option Q) :=
  let values := map value sortedData in
  map (fun p => if alert_eqb (getAlertLevel (snd p)) lvl then Some (fst p) else None)
      (combine values sortedData).

(** The three line-chart datasets (normal, warning, critical) built by
    [formatChartData] on both pages from the readings sorted by timestamp. *)
Definition lineDatasets (getAlertLevel : SensorReading -> AlertLevel)
    (readings : list SensorReading) : list (option Q) * list (option Q) * list (option Q) :=
  let sortedData := sort_ts readings in
  (segment getAlertLevel Normal sortedData,
   segment getAlertLevel Warning sortedData,
   segment getAlertLevel Critical sortedData).

End ChartSegments.

Module DeviceSummary.

(** [readings.filter(r => r.alertLevel === 'normal' || !r.isAlert).length] *)
Definition normalCount (readings : list SensorReading) : nat :=
  length (filter (fun r => match alertLevel r with Some Normal => true | _ => false end
                           || negb (isAlert r)) readings).

(** [readings.filter(r => r.alertLevel === 'warning').length] *)
Definition warningCount (readings : list SensorReading) : nat :=
  length (filter (fun r => match alertLevel r with Some Warning => true | _ => false end)
                 readings).

(** [readings.filter(r => r.alertLevel === 'critical').length] *)
Definition criticalCount (readings : list SensorReading) : nat :=
  length (filter (fun r => match alertLevel r with Some Critical => true | _ => false end)
                 readings).

(** A reading counted by exactly one of the three filters: its level is
    normal, or warning/critical with [isAlert] set, or absent with [isAlert]
    unset. *)
Definition countedOnce (r : SensorReading) : bool :=
  match alertLevel r with
  | Some Normal => true
  | Some Warning | Some Critical => isAlert r
  | None => negb (isAlert r)
  end.

End DeviceSummary.

(** ** Request interceptor, login and logout storage *)

Module RequestAuth.

(** [obj[k] = v] on a string-keyed object: overwrite in place or append. *)
Fixpoint hset (k v : string) (h : list (string * string)) : list (string * string) :=
  match h with
  | [] => [(k, v)]
  | (k', v') :: h' => if String.eqb k k' then (k, v) :: h' else (k', v') :: hset k v h'
  end.

(** [localStorage.setItem(k, v)] *)
Definition setItem (k v : string) (s : list (string * string)) : list (string * string) :=
  hset k v s.

Inductive ReqResult :=
| Proceed (headers : list (string * string))
| Fails.

Section WithJson.
(** [JSON.parse(s).token]: [None] when parsing or the destructuring throws,
    [Some None] when the parsed object has no token, [Some (Some t)]
    otherwise. *)
Variable parseToken : string -> option (option string).

(** The fulfilled branch of [axiosInstance.interceptors.request.use]; a
    throw inside it makes the request fail. *)
Definition onRequest (storage : list (string * string)) (headers : list (string * string))
  : ReqResult :=
  match Http.getItem "user" storage with
  | Some u =>
      if String.eqb u "" then Proceed headers
      else match parseToken u with
           | None => Fails
           | Some (Some t) =>
               if String.eqb t "" then Proceed headers
               else Proceed (hset "Authorization" ("Bearer " ++ t) headers)
           | Some None => Proceed headers
           end
  | None => Proceed headers
  end.

End WithJson.

(** Storage effect of a successful [login]:
    [localStorage.setItem('user', JSON.stringify(userData))]. *)
Definition loginStore (stringify : Auth.User -> string) (u : Auth.User)
    (s : list (string * string)) : list (string * string) :=
  setItem "user" (stringify u) s.

(** Storage effect of [logout] (in its [finally], so whether or not the
    logout request succeeds). *)
Definition logoutStore (s : list (string * string)) : list (string * string) :=
  Http.removeItem "user" s.

End RequestAuth.

(** ** Other guards and the sidebar *)

Module Guards.



Record NavItem := { nav_name : string; nav_href : string;
                    forAll : bool; forAdmin : bool; forSuperAdmin : bool }.

(** [navigation] of [DashboardLayout]. *)
Definition navigation : list NavItem := [
  {| nav_name := "Dashboard"; nav_href := "/"; forAll := true; forAdmin := false; forSuperAdmin := false |};
  {| nav_name := "Projects"; nav_href := "/projects"; forAll := true; forAdmin := false; forSuperAdmin := false |};
  {| nav_name := "Devices"; nav_href := "/devices"; forAll := true; forAdmin := false; forSuperAdmin := false |};
  {| nav_name := "Sensor Data"; nav_href := "/sensor-data"; forAll := true; forAdmin := false; forSuperAdmin := false |};
  {| nav_name := "Users"; nav_href := "/users"; forAll := false; forAdmin := true; forSuperAdmin := false |};
  {| nav_name := "Register User"; nav_href := "/register"; forAll := false; forAdmin := false; forSuperAdmin := true |}
].

(** Items rendered by the sidebar: [item.forAll || (item.forAdmin && isAdmin)
    || (item.forSuperAdmin && isSuperAdmin)]. *)
Definition visibleNav (a : Auth.AuthState) : list string :=
  map nav_name (filter (fun it => forAll it || (forAdmin it && Auth.isAdmin a) ||
                                  (forSuperAdmin it && Auth.isSuperAdmin a)) navigation).

End Guards.

(** ** DeviceThresholds: loading and resetting *)

Module DeviceThresholdsForm.
Import Thresholds.

(** The fields of a [SensorThreshold] from [thresholdService] that the
    component reads. *)
Record ServiceThreshold := {
  t_sensorType : string; t_device : option string; t_values : ThresholdValues
}.

(** [obj[k] = v] / [{...prev, [k]: v}] on a [ThresholdData] object. *)
Fixpoint tset (k : string) (v : ThresholdValues) (m : list (string * ThresholdValues))
  : list (string * ThresholdValues) :=
  match m with
  | [] => [(k, v)]
  | (k', v') :: m' => if String.eqb k k' then (k, v) :: m' else (k', v') :: tset k v m'
  end.

(** [sensorTypes.includes(k)] *)
Definition includes (sensorTypes : list string) (k : string) : bool :=
  existsb (String.eqb k) sensorTypes.

(** First [forEach] of [fetchThresholds]: defaults of the listed types. *)
Definition initDefaults (sensorTypes : list string) (defaults : list ServiceThreshold)
  : list (string * ThresholdValues) :=
  fold_left (fun acc t =>
               if includes sensorTypes (t_sensorType t)
               then tset (t_sensorType t) (t_values t) acc else acc) defaults [].

(** Second [forEach]: custom settings of this device override them. *)
Definition applyDevice (deviceId : string) (sensorTypes : list string)
    (custom : list ServiceThreshold) (acc : list (string * ThresholdValues))
  : list (string * ThresholdValues) :=
  fold_left (fun acc t =>
               if match t_device t with Some d => String.eqb d deviceId | None => false end
                  && includes sensorTypes (t_sensorType t)
               then tset (t_sensorType t) (t_values t) acc else acc) custom acc.

(** [deviceThresholds] after [fetchThresholds]: [defaults] is [None] when
    [getDefaultThresholds] rejects (the outer catch: the state is left as it
    was), [custom] is [None] when [getDeviceThresholds] rejects (the inner
    catch: defaults only). *)
Definition fetchThresholds (prev : list (string * ThresholdValues)) (deviceId : string)
    (sensorTypes : list string) (defaults : option (list ServiceThreshold))
    (custom : option (list ServiceThreshold)) : list (string * ThresholdValues) :=
  match defaults with
  | None => prev
  | Some ds =>
      let init := initDefaults sensorTypes ds in
      match custom with
      | Some cs => applyDevice deviceId sensorTypes cs init
      | None => init
      end
  end.

(** [handleResetToDefault] *)
Definition handleResetToDefault (defaults : list ServiceThreshold) (sensorType : string)
    (prev : list (string * ThresholdValues)) : list (string * ThresholdValues) :=
  match find (fun t => String.eqb (t_sensorType t) sensorType) defaults with
  | Some d => tset sensorType (t_values d) prev
  | None => prev
  end.

(** State after a successful [handleDeleteThreshold]. *)
Definition afterDeleteThreshold (defaults : list ServiceThreshold) (st : DeviceThresholdsState)
  : DeviceThresholdsState :=
  if String.eqb (selectedSensorType st) "" then st
  else {| deviceId := deviceId st; selectedSensorType := selectedSensorType st;
          deviceThresholds := handleResetToDefault defaults (selectedSensorType st)
                                (deviceThresholds st) |}.

(** The value the last element satisfying [p] carries (what a [forEach]
    that overwrites ends with). *)
Fixpoint lastFor (p : ServiceThreshold -> bool) (l : list ServiceThreshold)
  : option ThresholdValues :=
  match l with
  | [] => None
  | t :: l' => match lastFor p l' with
               | Some v => Some v
               | None => if p t then Some (t_values t) else None
               end
  end.

End DeviceThresholdsForm.

(** ** SensorData: the fetch window *)

Module SensorFetchWindow.
Import FetchWindow.



Section WithZone.
(** Local time is UTC shifted by a fixed offset [off]; [monthStart l] is
    local midnight of the first day of the month containing the local time
    [l] (the calendar, left abstract). *)
Variable off : Z.
Variable monthStart : Z -> Z.





End WithZone.

End SensorFetchWindow.

(** ** Socket lifecycle *)

Module SocketLifecycle.

(** Listeners registered on the shared [socket]: the three of
    [connectToSocket] and the pages' handlers. *)
Inductive Listener :=
| OnConnect
| OnDisconnect
| OnConnectError
| Handler (name : string).

(** The module state of [socketConfig]: the [isConnected] flag, the
    listeners of [socket] in registration order, and how often
    [socket.connect()] / [socket.disconnect()] were called. *)
Record SockState := {
  isConnected : bool;
  listeners : list (string * Listener);
  connectCalls : nat;
  disconnectCalls : nat
}.

Definition initial : SockState :=
  {| isConnected := false; listeners := []; connectCalls := 0; disconnectCalls := 0 |}.

(** [connectToSocket] *)
Definition connectToSocket (st : SockState) : SockState :=
  if isConnected st then st
  else {| isConnected := true;
          listeners := (listeners st ++
                        [("connect", OnConnect); ("disconnect", OnDisconnect);
                         ("connect_error", OnConnectError)])%list;
          connectCalls := S (connectCalls st);
          disconnectCalls := disconnectCalls st |}.

(** [disconnectFromSocket]: [removeAllListeners()] then [disconnect()]. *)
Definition disconnectFromSocket (st : SockState) : SockState :=
  if isConnected st
  then {| isConnected := false; listeners := []; connectCalls := connectCalls st;
          disconnectCalls := S (disconnectCalls st) |}
  else st.

(** [socket.on(e, handler)] from a page. *)
Definition on (e name : string) (st : SockState) : SockState :=
  {| isConnected := isConnected st; listeners := (listeners st ++ [(e, Handler name)])%list;
     connectCalls := connectCalls st; disconnectCalls := disconnectCalls st |}.

(** What a listener does to [isConnected]. *)
Definition listenerEffect (l : Listener) (c : bool) : bool :=
  match l with
  | OnConnect => true
  | OnDisconnect | OnConnectError => false
  | Handler _ => c
  end.

(** The socket emits event [e]: its listeners run in registration order. *)
Definition fire (e : string) (st : SockState) : SockState :=
  {| isConnected := fold_left (fun c p => if String.eqb (fst p) e then listenerEffect (snd p) c else c)
                              (listeners st) (isConnected st);
     listeners := listeners st; connectCalls := connectCalls st;
     disconnectCalls := disconnectCalls st |}.

(** Number of listeners registered for event [e]. *)
Definition listenerCount (e : string) (st : SockState) : nat :=
  length (filter (fun p => String.eqb (fst p) e) (listeners st)).

(** A page calls [connectToSocket] and the connection then drops. *)
Definition connectThenDrop (st : SockState) : SockState :=
  fire "disconnect" (connectToSocket st).

End SocketLifecycle.

(** ** ThresholdManagement: the local list *)

Module ManagementList.
Import Thresholds.

(** [a === b] on [_id] fields that may be [undefined]. *)
Definition idEq (a b : option string) : bool :=
  match a, b with
  | Some x, Some y => String.eqb x y
  | None, None => true
  | _, _ => false
  end.

(** [thresholds.map(t => t._id === updatedThreshold._id ? updatedThreshold : t)] *)
Definition afterUpdate (thresholds : list FormThreshold) (updated : FormThreshold)
  : list FormThreshold :=
  map (fun t => if idEq (f_id t) (f_id updated) then updated else t) thresholds.

(** [[...thresholds, newThreshold]] *)
Definition afterCreate (thresholds : list FormThreshold) (created : FormThreshold)
  : list FormThreshold :=
  (thresholds ++ [created])%list.

(** [thresholds.filter(t => t._id !== id)] *)
Definition afterDelete (thresholds : list FormThreshold) (id : string) : list FormThreshold :=
  filter (fun t => negb (idEq (f_id t) (Some id))) thresholds.

End ManagementList.

(** ** Dashboard temperature chart *)

Module DashboardChart.
Import DashboardStream.

Section WithHost.
(** [new Date(ms).toLocaleTimeString()] *)
Variable toLocaleTimeString : Z -> string.

(** [temperatureData.labels] *)
Definition temperatureLabels (recentData : list DashReading) : list string :=
  map (fun data => toLocaleTimeString (d_timestamp data))
      (slice_last 10 (filter (fun data => String.eqb (d_sensorType data) "temperature") recentData)).

(** [temperatureData.datasets[0].data] *)
Definition temperatureValues (recentData : list DashReading) : list Q :=
  map d_value
      (slice_last 10 (filter (fun data => String.eqb (d_sensorType data) "temperature") recentData)).

End WithHost.

End DashboardChart.

(** ** Excel export *)

Module ExcelExport.
Import CsvExport.

Section WithHost.
Variable toLocaleString : Z -> string.
Variable isoDate : string.

(** A cell value handed to [XLSX.utils.json_to_sheet]. *)
Inductive Cell :=
| CStr (s : string)
| CNum (q : Q).

Inductive ExcelResult :=
| ExcelToastError (msg : string)
| WriteFile (rows : list (list (string * Cell))) (filename : string).

(** One object of [excelData], its keys in order. *)
Definition excelRow (reading : SensorReading) : list (string * Cell) :=
  [("Timestamp", CStr (toLocaleString (timestamp reading)));
   ("Sensor Type", CStr (sensorType reading));
   ("Value", CNum (value reading));
   ("Unit", CStr (unit reading));
   ("Is Alert", CStr (if isAlert reading then "Yes" else "No"));
   ("Alert Message", CStr (match alertMessage reading with Some m => m | None => "" end))].

(** [exportToExcel] of [SensorData.tsx]: the rows written to the sheet
    ['Sensor Data'] and the file name. *)
Definition exportToExcel (selectedSensorType : string) (sensorData : JsValue) : ExcelResult :=
  match sensorData with
  | JArray ((_ :: _) as l) =>
      WriteFile (map excelRow l) ("sensor-data-" ++ selectedSensorType ++ "-" ++ isoDate ++ ".xlsx")
  | _ => ExcelToastError "No data to export"
  end.

End WithHost.

(** A cell as text, with the conversion [join] uses for numbers. *)
Definition cellText (numberToString : Q -> string) (c : Cell) : string :=
  match c with CStr s => s | CNum q => numberToString q end.

End ExcelExport.

(** ** SensorData: choosing the thresholds *)

Module SensorDataThresholds.
Import Thresholds DeviceThresholdsForm.

(** Requests made to [thresholdService]. *)
Inductive Request :=
| GetDeviceThresholds (device : string)
| GetProjectThresholds (project : string)
| GetDefaultThresholds.

(** [list.find(t => t.sensorType === selectedSensorType)] *)
Definition pick (selectedSensorType : string) (l : list ServiceThreshold) : option ThresholdValues :=
  match find (fun t => String.eqb (t_sensorType t) selectedSensorType) l with
  | Some t => Some (t_values t)
  | None => None
  end.

(** The [fetchThresholds] effect of [SensorData.tsx]: the requests made and
    the [thresholds] state afterwards.  Each [...Resp] is the answer to the
    request of that kind, [None] when it rejects (the catch leaves the
    state as it was). *)
Definition fetchThresholds (selectedSensorType selectedDevice selectedProject : string)
    (deviceResp projectResp defaultResp : option (list ServiceThreshold))
    (prev : option ThresholdValues) : list Request * option ThresholdValues :=
  if String.eqb selectedSensorType "" || String.eqb selectedDevice "" then ([], prev)
  else
    let fallback (reqs : list Request) :=
      match defaultResp with
      | None => ((reqs ++ [GetDefaultThresholds])%list, prev)
      | Some fs =>
          ((reqs ++ [GetDefaultThresholds])%list,
           match pick selectedSensorType fs with Some v => Some v | None => prev end)
      end in
    match deviceResp with
    | None => ([GetDeviceThresholds selectedDevice], prev)
    | Some ds =>
        match pick selectedSensorType ds with
        | Some v => ([GetDeviceThresholds selectedDevice], Some v)
        | None =>
            if String.eqb selectedProject "" then fallback [GetDeviceThresholds selectedDevice]
            else
              match projectResp with
              | None => ([GetDeviceThresholds selectedDevice;
                          GetProjectThresholds selectedProject], prev)
              | Some ps =>
                  match pick selectedSensorType ps with
                  | Some v => ([GetDeviceThresholds selectedDevice;
                                GetProjectThresholds selectedProject], Some v)
                  | None => fallback [GetDeviceThresholds selectedDevice;
                                      GetProjectThresholds selectedProject]
                  end
              end
        end
    end.

End SensorDataThresholds.

(** ** AuthProvider: restoring the session *)

Module AuthRestore.


End AuthRestore.

(** ** DeviceDashboard: thresholds per sensor type *)

Module DeviceDashboardThresholds.
Import Thresholds DeviceThresholdsForm SensorDataThresholds.

(** [thresholdsData] built by [fetchData]: for each sensor type of the
    device, its device threshold, else its default threshold
    ([getDefaultThresholds] is asked again for every such type; each call
    is taken to return [defaults]). *)
Definition thresholdsData (sensorTypes : list string) (deviceThresholds defaults : list ServiceThreshold)
  : list (string * ThresholdValues) :=
  fold_left (fun acc sensorType =>
               match pick sensorType deviceThresholds with
               | Some v => tset sensorType v acc
               | None =>
                   match pick sensorType defaults with
                   | Some v => tset sensorType v acc
                   | None => acc
                   end
               end) sensorTypes [].

End DeviceDashboardThresholds.

(** ** Sample inputs *)

Definition sample_reading : SensorReading := {|
  r_id := "r1"; device := DevId "dev1"; timestamp := 0%Z; sensorType := "pH";
  value := 7%Q; unit := "pH"; isAlert := false; alertLevel := None;
  alertMessage := None |}.



Definition sample_dash : DashboardStream.DashReading := {|
  DashboardStream.d_id := "r1"; DashboardStream.d_device := "dev1";
  DashboardStream.d_project := "p1"; DashboardStream.d_timestamp := 0%Z;
  DashboardStream.d_sensorType := "pH"; DashboardStream.d_value := 7%Q;
  DashboardStream.d_unit := "pH"; DashboardStream.d_isAlert := false |}.

Definition sample_admin : Auth.User := {|
  Auth.u_id := "u1"; Auth.name := "Ada"; Auth.email := "a@x"; Auth.role := "projectadmin";
  Auth.projects := []; Auth.token := "t" |}.

Definition sample_browser : Http.Browser := {|
  Http.storage := [("user", "{token:t}"); ("theme", "dark")];
  Http.href := "/devices" |}.

Definition sample_401 : Http.AxiosError := {|
  Http.status := Some 401%Z;
  Http.config := {| Http.url := "/api/projects"; Http.retry := false |} |}.

Definition sample_values : Thresholds.ThresholdValues := {|
  Thresholds.tv_idealMin := 6; Thresholds.tv_idealMax := 8;
  Thresholds.tv_warningMin := 5; Thresholds.tv_warningMax := 9;
  Thresholds.tv_criticalMin := 4; Thresholds.tv_criticalMax := 10;
  Thresholds.tv_unit := "pH" |}.

Definition sample_device_thresholds : Thresholds.DeviceThresholdsState := {|
  Thresholds.deviceId := "dev1";
  Thresholds.selectedSensorType := "pH";
  Thresholds.deviceThresholds := [("pH", sample_values)] |}.


Definition sample_locale_string (_ : Z) : string := "1/1/2024, 10:00:00 AM".

Definition sample_number_string (_ : Q) : string := "7".

Definition sample_stringify (u : Auth.User) : string := Auth.token u.

Definition sample_parse (s : string) : option (option string) := Some (Some s).

Definition sample_default : DeviceThresholdsForm.ServiceThreshold := {|
  DeviceThresholdsForm.t_sensorType := "pH"; DeviceThresholdsForm.t_device := None;
  DeviceThresholdsForm.t_values := sample_values |}.

Definition sample_form (i : string) : Thresholds.FormThreshold := {|
  Thresholds.f_id := Some i; Thresholds.f_sensorType := "pH"; Thresholds.f_values := sample_values |}.

(** ** Lemmas *)

Lemma qlt_spec (a b : Q) : qlt a b = true <-> (a < b)%Q.
Proof.
  unfold qlt. rewrite negb_true_iff. split; intro H.
  - apply Qnot_le_lt. intro Hle. apply Qle_bool_iff in Hle. congruence.
  - destruct (Qle_bool b a) eqn:E; [|reflexivity].
    apply Qle_bool_iff in E. exfalso. apply (Qlt_not_le a b); assumption.
Qed.

Lemma qlt_false (a b : Q) : qlt a b = false <-> ~ (a < b)%Q.
Proof.
  split; intro H.
  - intro Hl. apply qlt_spec in Hl. congruence.
  - destruct (qlt a b) eqn:E; [|reflexivity]. apply qlt_spec in E. tauto.
Qed.

Lemma orb_qlt_true a b c d :
  qlt a b || qlt c d = true <-> (a < b \/ c < d)%Q.
Proof. rewrite orb_true_iff, !qlt_spec. tauto. Qed.

Lemma orb_qlt_false a b c d :
  qlt a b || qlt c d = false <-> ~ (a < b \/ c < d)%Q.
Proof. rewrite orb_false_iff, !qlt_false. tauto. Qed.

Lemma classification_shape (f : option SensorThreshold -> SensorReading -> AlertLevel) :
  (forall t r, f (Some t) r =
     if qlt (value r) (criticalMin t) || qlt (criticalMax t) (value r) then Critical
     else if qlt (value r) (warningMin t) || qlt (warningMax t) (value r) then Warning
     else Normal) ->
  (forall r, f None r = match alertLevel r with Some l => l | None => Normal end) ->
  classifies f.
Proof.
  intros Hs Hn. split; [|exact Hn]. intros t r v. subst v. rewrite !Hs.
  destruct (qlt (value r) (criticalMin t) || qlt (criticalMax t) (value r)) eqn:C;
  [apply orb_qlt_true in C | apply orb_qlt_false in C];
  [|destruct (qlt (value r) (warningMin t) || qlt (warningMax t) (value r)) eqn:W;
    [apply orb_qlt_true in W | apply orb_qlt_false in W]];
  repeat split; intros; try discriminate; tauto.
Qed.

(** C1: both pages classify a reading against a threshold record exactly as
    described: critical iff the value is strictly outside
    [criticalMin, criticalMax]; otherwise warning iff strictly outside
    [warningMin, warningMax]; otherwise normal.  Without a threshold record
    the reading's own [alertLevel] is used, defaulting to normal. *)
Theorem getAlertLevel_classification :
  classifies SensorDataPage.getAlertLevel /\
  classifies DeviceDashboardPage.getAlertLevel.
Proof.
  split; apply classification_shape; reflexivity.
Qed.

(** *** Sorting *)

Lemma insert_ts_perm x l : Permutation (insert_ts x l) (x :: l).
Proof.
  induction l as [|y l IH]; simpl; [reflexivity|].
  destruct (timestamp x <=? timestamp y)%Z; [reflexivity|].
  rewrite IH. apply perm_swap.
Qed.

Lemma sort_ts_perm l : Permutation (sort_ts l) l.
Proof.
  induction l as [|x l IH]; simpl; [reflexivity|].
  rewrite insert_ts_perm, IH. reflexivity.
Qed.

Lemma insert_ts_hdrel x y l :
  ts_le y x -> HdRel ts_le y l -> HdRel ts_le y (insert_ts x l).
Proof.
  intros Hyx Hl. destruct l as [|z l]; simpl.
  - constructor. exact Hyx.
  - destruct (timestamp x <=? timestamp z)%Z.
    + constructor. exact Hyx.
    + inversion Hl; subst. constructor. assumption.
Qed.

Lemma insert_ts_sorted x l : Sorted ts_le l -> Sorted ts_le (insert_ts x l).
Proof.
  induction 1 as [|y l Hl IH Hhd]; simpl.
  - repeat constructor.
  - destruct (timestamp x <=? timestamp y)%Z eqn:E.
    + apply Z.leb_le in E. constructor; [constructor; assumption|].
      constructor. exact E.
    + apply Z.leb_gt in E. constructor; [exact IH|].
      apply insert_ts_hdrel; [unfold ts_le; lia | exact Hhd].
Qed.

Lemma sort_ts_sorted l : Sorted ts_le (sort_ts l).
Proof.
  induction l; simpl; [constructor | apply insert_ts_sorted; assumption].
Qed.

Lemma sort_ts_length l : length (sort_ts l) = length l.
Proof. apply Permutation_length, sort_ts_perm. Qed.

Lemma sorted_tl {A} (R : A -> A -> Prop) l : Sorted R l -> Sorted R (tl l).
Proof. destruct 1; simpl; [constructor | assumption]. Qed.

(** *** Association-list records *)

Lemma rec_get_set k k' v m :
  rec_get k (rec_set k' v m) = if String.eqb k k' then Some v else rec_get k m.
Proof.
  induction m as [|[k2 v2] m IH]; simpl.
  - destruct (String.eqb k k'); reflexivity.
  - destruct (String.eqb k' k2) eqn:E2; simpl.
    + apply String.eqb_eq in E2; subst k2.
      destruct (String.eqb k k'); reflexivity.
    + rewrite IH. destruct (String.eqb k k') eqn:E; [|reflexivity].
      apply String.eqb_eq in E; subst k'. rewrite E2. reflexivity.
Qed.

(** *** Window bounds *)








Lemma slice_last_length {A} n (l : list A) : (length (DashboardStream.slice_last n l) <= n)%nat.
Proof. unfold DashboardStream.slice_last. rewrite length_skipn. lia. Qed.


(** *** Dashboard de-duplication *)

Lemma pair_count_app dev ty l1 l2 :
  DashboardStream.pair_count dev ty (l1 ++ l2)%list =
  (DashboardStream.pair_count dev ty l1 + DashboardStream.pair_count dev ty l2)%nat.
Proof. unfold DashboardStream.pair_count. rewrite filter_app, length_app. reflexivity. Qed.

Lemma pair_count_skipn_le dev ty n l :
  (DashboardStream.pair_count dev ty (skipn n l) <= DashboardStream.pair_count dev ty l)%nat.
Proof.
  rewrite <- (firstn_skipn n l) at 2. rewrite pair_count_app. lia.
Qed.

Lemma pair_count_filter_le dev ty p l :
  (DashboardStream.pair_count dev ty (filter p l) <= DashboardStream.pair_count dev ty l)%nat.
Proof.
  unfold DashboardStream.pair_count.
  induction l as [|x l IH]; simpl; [lia|].
  destruct (p x); simpl;
  destruct (String.eqb (DashboardStream.d_device x) dev &&
            String.eqb (DashboardStream.d_sensorType x) ty); simpl; lia.
Qed.

Lemma pair_count_removed d l :
  DashboardStream.pair_count (DashboardStream.d_device d) (DashboardStream.d_sensorType d)
    (filter (fun item =>
       negb (String.eqb (DashboardStream.d_device item) (DashboardStream.d_device d) &&
             String.eqb (DashboardStream.d_sensorType item) (DashboardStream.d_sensorType d))) l)
  = 0%nat.
Proof.
  unfold DashboardStream.pair_count.
  induction l as [|x l IH]; simpl; [reflexivity|].
  destruct (String.eqb (DashboardStream.d_device x) (DashboardStream.d_device d) &&
            String.eqb (DashboardStream.d_sensorType x) (DashboardStream.d_sensorType d)) eqn:E;
  simpl; [exact IH|]. rewrite E. exact IH.
Qed.


(** ** Claims *)




(** C9: the insertion step of both pages (append, stable sort by timestamp,
    and on DeviceDashboard [shift()] past 100 entries) yields a list sorted
    non-decreasingly by timestamp that contains the new reading, unless the
    reading was the oldest entry and was the one shifted off.  The input need
    not even be sorted. *)
Theorem insertion_step_sorted (prev : list SensorReading) (r : SensorReading) :
  (Sorted ts_le (DeviceDashboardStream.insertReading prev r) /\
   (In r (DeviceDashboardStream.insertReading prev r) \/
    ((100 < length (sort_ts (prev ++ [r])%list))%nat /\
     hd_error (sort_ts (prev ++ [r])%list) = Some r))) /\
  (Sorted ts_le (SensorDataStream.insertReading prev r) /\
   In r (SensorDataStream.insertReading prev r)).
Proof.
  assert (Hin : In r (sort_ts (prev ++ [r])%list)).
  { apply (Permutation_in _ (Permutation_sym (sort_ts_perm _))).
    apply in_or_app; right; left; reflexivity. }
  split; [|split; [apply sort_ts_sorted | exact Hin]].
  unfold DeviceDashboardStream.insertReading.
  destruct (100 <? length (sort_ts (prev ++ [r])%list))%nat eqn:E.
  - split; [apply sorted_tl, sort_ts_sorted|].
    apply Nat.ltb_lt in E.
    destruct (sort_ts (prev ++ [r])%list) as [|x u] eqn:Es; [destruct Hin|].
    destruct Hin as [<-|Hu]; [right; split; [exact E | reflexivity] | left; exact Hu].
  - split; [apply sort_ts_sorted | left; exact Hin].
Qed.

(** C10: if each (device, sensorType) pair occurs at most once in the
    Dashboard's recent-data list, then after the ['new-sensor-data'] listener
    the new reading's pair occurs exactly once and every other pair at most
    once. *)
Theorem dashboard_dedup (prev : list DashboardStream.DashReading)
    (d : DashboardStream.DashReading)
    (Hprev : forall dev ty, (DashboardStream.pair_count dev ty prev <= 1)%nat) :
  DashboardStream.pair_count (DashboardStream.d_device d) (DashboardStream.d_sensorType d)
    (DashboardStream.onNewSensorData prev d) = 1%nat /\
  (forall dev ty, (dev, ty) <> (DashboardStream.d_device d, DashboardStream.d_sensorType d) ->
     (DashboardStream.pair_count dev ty (DashboardStream.onNewSensorData prev d) <= 1)%nat).
Proof.
  unfold DashboardStream.onNewSensorData, DashboardStream.slice_last.
  set (filtered := filter _ prev).
  split.
  - rewrite skipn_app, length_app. simpl.
    replace (length filtered + 1 - 50 - length filtered)%nat with 0%nat by lia.
    rewrite pair_count_app. simpl.
    pose proof (pair_count_skipn_le (DashboardStream.d_device d) (DashboardStream.d_sensorType d)
                  (length filtered + 1 - 50) filtered) as Hs.
    assert (Hz : DashboardStream.pair_count (DashboardStream.d_device d)
                   (DashboardStream.d_sensorType d) filtered = 0%nat)
      by apply pair_count_removed.
    unfold DashboardStream.pair_count at 2. simpl.
    rewrite !String.eqb_refl. simpl. lia.
  - intros dev ty Hne.
    eapply Nat.le_trans; [apply pair_count_skipn_le|].
    rewrite pair_count_app.
    assert (H0 : DashboardStream.pair_count dev ty [d] = 0%nat).
    { unfold DashboardStream.pair_count. simpl.
      destruct (String.eqb (DashboardStream.d_device d) dev) eqn:E1,
               (String.eqb (DashboardStream.d_sensorType d) ty) eqn:E2; simpl; try reflexivity.
      apply String.eqb_eq in E1, E2. subst. exfalso. apply Hne. reflexivity. }
    rewrite H0.
    assert (Hf : (DashboardStream.pair_count dev ty filtered <=
                  DashboardStream.pair_count dev ty prev)%nat)
      by apply pair_count_filter_le.
    specialize (Hprev dev ty). lia.
Qed.

Lemma dashboard_dedup_witness :
  (forall dev ty, (DashboardStream.pair_count dev ty [sample_dash] <= 1)%nat) /\
  DashboardStream.pair_count "dev1" "pH"
    (DashboardStream.onNewSensorData [sample_dash] sample_dash) = 1%nat.
Proof.
  assert (Hp : forall dev ty, (DashboardStream.pair_count dev ty [sample_dash] <= 1)%nat).
  { intros dev ty. unfold DashboardStream.pair_count. simpl.
    destruct (_ && _); simpl; lia. }
  split; [exact Hp|].
  exact (proj1 (dashboard_dedup [sample_dash] sample_dash Hp)).
Defined.

(** C3 (counterexample): in the provider's initial state ([loading] true,
    no user) the user is unauthenticated, yet neither guard redirects to
    [/login]: both render the loading placeholder. *)
Lemma route_guards_loading_counterexample :
  Auth.isAuthenticated Auth.initialState = false /\
  Auth.AdminRoute Auth.initialState <> Auth.Navigate "/login" /\
  Auth.SuperAdminRoute Auth.initialState <> Auth.Navigate "/login".
Proof. repeat split; discriminate. Qed.

(** C3 (amended): while the authentication state is loading both guards
    render a loading placeholder; once loaded, an unauthenticated user is
    redirected to [/login] by both; an authenticated user gets the children
    of [AdminRoute] iff the role is superadmin or projectadmin and of
    [SuperAdminRoute] iff the role is superadmin, and is redirected to [/]
    otherwise. *)
Theorem route_guards_after_loading (a : Auth.AuthState) :
  (Auth.loading a = true ->
     Auth.AdminRoute a = Auth.LoadingView /\ Auth.SuperAdminRoute a = Auth.LoadingView) /\
  (Auth.loading a = false ->
     (Auth.user a = None ->
        Auth.AdminRoute a = Auth.Navigate "/login" /\
        Auth.SuperAdminRoute a = Auth.Navigate "/login") /\
     (forall u, Auth.user a = Some u ->
        ((Auth.role u = "superadmin" \/ Auth.role u = "projectadmin") ->
           Auth.AdminRoute a = Auth.Children) /\
        ((Auth.role u <> "superadmin" /\ Auth.role u <> "projectadmin") ->
           Auth.AdminRoute a = Auth.Navigate "/") /\
        (Auth.role u = "superadmin" -> Auth.SuperAdminRoute a = Auth.Children) /\
        (Auth.role u <> "superadmin" -> Auth.SuperAdminRoute a = Auth.Navigate "/"))).
Proof.
  destruct a as [usr ld]; unfold Auth.AdminRoute, Auth.SuperAdminRoute,
    Auth.isAuthenticated, Auth.isAdmin, Auth.isSuperAdmin; simpl.
  split; intro Hl; subst ld; [split; reflexivity|].
  split; [intro Hu; subst usr; split; reflexivity|].
  intros u Hu; subst usr; simpl.
  repeat split; intro Hr.
  - destruct Hr as [-> | ->]; reflexivity.
  - destruct Hr as [H1 H2]. apply String.eqb_neq in H1, H2. rewrite H1, H2. reflexivity.
  - rewrite Hr. reflexivity.
  - apply String.eqb_neq in Hr. rewrite Hr. reflexivity.
Qed.

Lemma route_guards_after_loading_witness :
  Auth.AdminRoute {| Auth.user := Some sample_admin; Auth.loading := false |} = Auth.Children /\
  Auth.SuperAdminRoute {| Auth.user := Some sample_admin; Auth.loading := false |}
    = Auth.Navigate "/".
Proof.
  destruct (route_guards_after_loading {| Auth.user := Some sample_admin; Auth.loading := false |})
    as [_ H].
  destruct (H eq_refl) as [_ Hu].
  destruct (Hu sample_admin eq_refl) as [Ha [_ [_ Hs]]].
  split; [apply Ha; right; reflexivity | apply Hs; discriminate].
Defined.

(** C4: on a 401 response error whose request is not yet marked, the
    interceptor marks the request as retried, removes the ['user'] entry of
    [localStorage] (leaving every other entry) and sets the location to
    [/login]; on every other error the browser state, and so the stored user,
    is unchanged; in every case it rejects with the error object. *)
Theorem interceptor_on_error (b : Http.Browser) (e : Http.AxiosError) :
  let '(b', Http.Rejected e') := Http.onResponseError b e in
  ((Http.status e = Some 401%Z /\ Http.retry (Http.config e) = false) ->
     Http.retry (Http.config e') = true /\
     Http.url (Http.config e') = Http.url (Http.config e) /\
     Http.status e' = Http.status e /\
     Http.getItem "user" (Http.storage b') = None /\
     (forall k, k <> "user" -> Http.getItem k (Http.storage b') = Http.getItem k (Http.storage b)) /\
     Http.href b' = "/login") /\
  (~ (Http.status e = Some 401%Z /\ Http.retry (Http.config e) = false) ->
     b' = b /\ e' = e).
Proof.
  unfold Http.onResponseError.
  destruct e as [st [u rt]]; simpl.
  assert (Hget : forall k s, Http.getItem k (Http.removeItem "user" s) =
                             if String.eqb k "user" then None else Http.getItem k s).
  { intros k s. unfold Http.getItem, Http.removeItem.
    induction s as [|[k1 v1] s IH]; simpl; [destruct (String.eqb k "user"); reflexivity|].
    destruct (String.eqb k1 "user") eqn:E1; simpl.
    - apply String.eqb_eq in E1; subst k1. rewrite IH.
      destruct (String.eqb k "user") eqn:E; [reflexivity|].
      rewrite String.eqb_sym, E. reflexivity.
    - destruct (String.eqb k1 k) eqn:E2.
      + apply String.eqb_eq in E2; subst k1. rewrite E1. reflexivity.
      + exact IH. }
  destruct st as [s|]; [destruct (Z.eqb s 401) eqn:Es|]; destruct rt; simpl.
  - split; [intros [_ H]; discriminate|]. intros _. split; reflexivity.
  - apply Z.eqb_eq in Es; subst s. split.
    + intros _. repeat split; try reflexivity.
      * rewrite Hget. reflexivity.
      * intros k Hk. rewrite Hget. apply String.eqb_neq in Hk. rewrite Hk. reflexivity.
    + intros Hn. exfalso. apply Hn. split; reflexivity.
  - split; [intros [H _]; injection H as ->; discriminate|]. intros _. split; reflexivity.
  - split; [intros [H _]; injection H as ->; discriminate|]. intros _. split; reflexivity.
  - split; [intros [H _]; discriminate|]. intros _. split; reflexivity.
  - split; [intros [H _]; discriminate|]. intros _. split; reflexivity.
Qed.

Lemma interceptor_on_error_witness :
  Http.getItem "user" (Http.storage (fst (Http.onResponseError sample_browser sample_401))) = None /\
  Http.getItem "theme" (Http.storage (fst (Http.onResponseError sample_browser sample_401)))
    = Some "dark".
Proof.
  pose proof (interceptor_on_error sample_browser sample_401) as H. simpl in H.
  destruct H as [H _]. destruct (H (conj eq_refl eq_refl)) as [_ [_ [_ [G1 [G2 _]]]]].
  split; [exact G1 | apply G2; discriminate].
Defined.




(** C6 (counterexample): a failed dashboard fetch is started again by the
    client after its retry timer fires, and the shared socket is created with
    reconnection options of the client's own. *)
Lemma dashboard_retry_counterexample :
  DashboardFetch.fetchCount
    (DashboardFetch.run [DashboardFetch.FetchFailed; DashboardFetch.TimerFired]
       DashboardFetch.initial) = 2%nat /\
  SocketConfig.reconnectionAttempts SocketConfig.socketOptions = Some 5%Z.
Proof. split; reflexivity. Qed.

(** C6 (amended): a failed Dashboard fetch is retried automatically: while
    fewer than 3 retries were made, a failure schedules a retry after
    [2^retryCount * 1000] ms, whose timer re-runs the fetch; after 3 retries a
    failure shows an error toast and schedules nothing.  Four failures in a
    row give delays of 1 s, 2 s and 4 s, four fetches and one toast.  The
    shared socket is created with its own reconnection policy: reconnection
    on, 5 attempts, 1 s initial and 5 s maximal delay, 20 s timeout, no
    automatic connection. *)
Theorem dashboard_retry_policy :
  (forall st, (DashboardFetch.retryCount st < 3)%nat ->
     DashboardFetch.timer (DashboardFetch.step st DashboardFetch.FetchFailed) =
       Some (2 ^ Z.of_nat (DashboardFetch.retryCount st) * 1000)%Z /\
     DashboardFetch.fetchCount
       (DashboardFetch.step (DashboardFetch.step st DashboardFetch.FetchFailed)
          DashboardFetch.TimerFired) = S (DashboardFetch.fetchCount st) /\
     DashboardFetch.retryCount
       (DashboardFetch.step (DashboardFetch.step st DashboardFetch.FetchFailed)
          DashboardFetch.TimerFired) = S (DashboardFetch.retryCount st)) /\
  (forall st, (3 <= DashboardFetch.retryCount st)%nat ->
     DashboardFetch.step st DashboardFetch.FetchFailed =
       {| DashboardFetch.retryCount := DashboardFetch.retryCount st;
          DashboardFetch.timer := DashboardFetch.timer st;
          DashboardFetch.fetchCount := DashboardFetch.fetchCount st;
          DashboardFetch.delays := DashboardFetch.delays st;
          DashboardFetch.toasts := (DashboardFetch.toasts st ++ [DashboardFetch.giveUpMessage])%list |}) /\
  DashboardFetch.run
    [DashboardFetch.FetchFailed; DashboardFetch.TimerFired;
     DashboardFetch.FetchFailed; DashboardFetch.TimerFired;
     DashboardFetch.FetchFailed; DashboardFetch.TimerFired;
     DashboardFetch.FetchFailed] DashboardFetch.initial =
    {| DashboardFetch.retryCount := 3; DashboardFetch.timer := None;
       DashboardFetch.fetchCount := 4; DashboardFetch.delays := [1000; 2000; 4000]%Z;
       DashboardFetch.toasts := [DashboardFetch.giveUpMessage] |} /\
  SocketConfig.socketOptions =
    {| SocketConfig.autoConnect := Some false; SocketConfig.reconnection := Some true;
       SocketConfig.reconnectionAttempts := Some 5%Z;
       SocketConfig.reconnectionDelay := Some 1000%Z;
       SocketConfig.reconnectionDelayMax := Some 5000%Z;
       SocketConfig.timeout := Some 20000%Z |}.
Proof.
  split.
  { intros st H. unfold DashboardFetch.step.
    apply Nat.ltb_lt in H. rewrite H. simpl. repeat split. }
  split.
  { intros st H. unfold DashboardFetch.step.
    apply Nat.ltb_ge in H. rewrite H. reflexivity. }
  split; reflexivity.
Qed.

Lemma dashboard_retry_policy_witness :
  DashboardFetch.timer (DashboardFetch.step DashboardFetch.initial DashboardFetch.FetchFailed)
    = Some 1000%Z.
Proof.
  destruct dashboard_retry_policy as [H _].
  exact (proj1 (H DashboardFetch.initial ltac:(simpl; lia))).
Defined.

(** C7: [exportToCSV] shows 'No data to export' and saves no file exactly
    when the data is not an array or is empty; otherwise it saves a file
    whose content is the header line followed by one comma-joined line per
    reading, in list order, with Yes/No for [isAlert] and the empty string
    for a missing [alertMessage]. *)
Theorem exportToCSV_spec (toLocaleString : Z -> string) (numberToString : Q -> string)
    (isoDate ty : string) :
  (forall v,
     CsvExport.exportToCSV toLocaleString numberToString isoDate ty v =
       CsvExport.ToastError "No data to export" <->
     v = CsvExport.JNonArray \/ v = CsvExport.JArray []) /\
  (forall v, (exists c f, CsvExport.exportToCSV toLocaleString numberToString isoDate ty v =
                          CsvExport.SaveAs c f) <->
             exists r l, v = CsvExport.JArray (r :: l)) /\
  (forall l, l <> [] ->
     exists f, CsvExport.exportToCSV toLocaleString numberToString isoDate ty (CsvExport.JArray l) =
       CsvExport.SaveAs
         (String.concat CsvExport.newline
            ("Timestamp,Sensor Type,Value,Unit,Is Alert,Alert Message" ::
             map (fun r => String.concat ","
                    [toLocaleString (timestamp r); sensorType r; numberToString (value r);
                     unit r; if isAlert r then "Yes" else "No";
                     match alertMessage r with Some m => m | None => "" end]) l))
         f).
Proof.
  split; [|split].
  - intros [[|r l]|]; simpl; split; intro H; try reflexivity; try discriminate.
    + right; reflexivity.
    + destruct H as [H|H]; discriminate.
    + left; reflexivity.
  - intros [[|r l]|]; simpl; split.
    + intros (c & f & H); discriminate.
    + intros (r & l & H); discriminate.
    + intros _. exists r, l. reflexivity.
    + intros _. eexists; eexists; reflexivity.
    + intros (c & f & H); discriminate.
    + intros (r' & l' & H); discriminate.
  - intros [|r l] Hl; [exfalso; apply Hl; reflexivity|].
    eexists. unfold CsvExport.exportToCSV. rewrite map_map. reflexivity.
Qed.

Lemma exportToCSV_spec_witness :
  CsvExport.exportToCSV sample_locale_string sample_number_string "2024-01-01" "pH"
    (CsvExport.JArray [sample_reading]) =
  CsvExport.SaveAs
    ("Timestamp,Sensor Type,Value,Unit,Is Alert,Alert Message" ++ CsvExport.newline ++
     "1/1/2024, 10:00:00 AM,pH,7,pH,No,")
    "sensor-data-pH-2024-01-01.csv".
Proof.
  destruct (exportToCSV_spec sample_locale_string sample_number_string "2024-01-01" "pH")
    as [_ [_ H]].
  destruct (H [sample_reading] ltac:(discriminate)) as [f Hf].
  rewrite Hf. vm_compute in Hf. injection Hf as <-. reflexivity.
Defined.



(** * Further properties of the code *)

Lemma segment_nth f lvl l i r :
  nth_error l i = Some r ->
  nth_error (ChartSegments.segment f lvl l) i =
    Some (if ChartSegments.alert_eqb (f r) lvl then Some (value r) else None).
Proof.
  unfold ChartSegments.segment. revert i.
  induction l as [|x l IH]; intros [|i] H; simpl in *; try discriminate.
  - injection H as ->. reflexivity.
  - apply IH, H.
Qed.

Lemma segment_length f lvl l : length (ChartSegments.segment f lvl l) = length l.
Proof.
  unfold ChartSegments.segment. rewrite length_map, length_combine, length_map. lia.
Qed.

(** The three line-chart datasets have one entry per reading, and at every
    position of the time-sorted readings exactly the dataset of that
    reading's alert level holds its value while the other two hold null. *)
Theorem lineDatasets_partition (f : SensorReading -> AlertLevel)
    (readings : list SensorReading) (i : nat) (r : SensorReading)
    (Hi : nth_error (sort_ts readings) i = Some r) :
  let '(nd, wd, cd) := ChartSegments.lineDatasets f readings in
  length nd = length readings /\ length wd = length readings /\ length cd = length readings /\
  (nth_error nd i, nth_error wd i, nth_error cd i) =
    match f r with
    | Normal => (Some (Some (value r)), Some None, Some None)
    | Warning => (Some None, Some (Some (value r)), Some None)
    | Critical => (Some None, Some None, Some (Some (value r)))
    end.
Proof.
  unfold ChartSegments.lineDatasets.
  rewrite !segment_length, sort_ts_length, !(segment_nth _ _ _ _ _ Hi).
  repeat split; destruct (f r); reflexivity.
Qed.

Lemma lineDatasets_partition_witness :
  nth_error (sort_ts [sample_reading]) 0 = Some sample_reading /\
  nth_error (snd (ChartSegments.lineDatasets (SensorDataPage.getAlertLevel None) [sample_reading])) 0
    = Some None.
Proof.
  assert (H : nth_error (sort_ts [sample_reading]) 0 = Some sample_reading) by reflexivity.
  split; [exact H|].
  pose proof (lineDatasets_partition (SensorDataPage.getAlertLevel None) [sample_reading] 0
                sample_reading H) as P.
  exact (f_equal snd (proj2 (proj2 (proj2 P)))).
Defined.

(** Each of the DeviceDashboard summary counts is at most the number of
    readings; when every reading is counted by exactly one filter (level
    normal, or warning/critical with [isAlert], or no level without
    [isAlert]) the three counts add up to the total. *)
Theorem summary_counts (readings : list SensorReading) :
  (DeviceSummary.normalCount readings <= length readings)%nat /\
  (DeviceSummary.warningCount readings <= length readings)%nat /\
  (DeviceSummary.criticalCount readings <= length readings)%nat /\
  (forallb DeviceSummary.countedOnce readings = true ->
   (DeviceSummary.normalCount readings + DeviceSummary.warningCount readings +
    DeviceSummary.criticalCount readings)%nat = length readings).
Proof.
  unfold DeviceSummary.normalCount, DeviceSummary.warningCount, DeviceSummary.criticalCount.
  split; [apply filter_length_le|]. split; [apply filter_length_le|].
  split; [apply filter_length_le|].
  induction readings as [|r l IH]; simpl; [reflexivity|].
  intro H. apply andb_true_iff in H as [Hr Hl]. specialize (IH Hl).
  unfold DeviceSummary.countedOnce in Hr.
  destruct (alertLevel r) as [[| |]|], (isAlert r); simpl in *; try discriminate; lia.
Qed.

Lemma summary_counts_witness :
  forallb DeviceSummary.countedOnce [sample_reading] = true /\
  (DeviceSummary.normalCount [sample_reading] + DeviceSummary.warningCount [sample_reading] +
   DeviceSummary.criticalCount [sample_reading])%nat = 1%nat.
Proof.
  assert (H : forallb DeviceSummary.countedOnce [sample_reading] = true) by reflexivity.
  split; [exact H|].
  exact (proj2 (proj2 (proj2 (summary_counts [sample_reading]))) H).
Defined.

(** DeviceDashboard's handler changes at most the window of the reading's
    own sensor type: every other sensor type's window is left as it was, and
    a reading of another device or of a sensor type without a window leaves
    the whole state unchanged. *)
Theorem dd_handler_frame (id : string) (m : SensorMap) (r : SensorReading) :
  (forall k, k <> sensorType r ->
     rec_get k (DeviceDashboardStream.handleNewSensorData id m r) = rec_get k m) /\
  (deviceIs id r = false -> DeviceDashboardStream.handleNewSensorData id m r = m) /\
  (rec_get (sensorType r) m = None -> DeviceDashboardStream.handleNewSensorData id m r = m) /\
  (forall w, deviceIs id r = true -> rec_get (sensorType r) m = Some w ->
     rec_get (sensorType r) (DeviceDashboardStream.handleNewSensorData id m r) =
       Some (DeviceDashboardStream.insertReading w r)).
Proof.
  unfold DeviceDashboardStream.handleNewSensorData.
  split; [|split; [|split]].
  - intros k Hk. destruct (deviceIs id r); [|reflexivity].
    destruct (rec_get (sensorType r) m); [|reflexivity].
    rewrite rec_get_set. apply String.eqb_neq in Hk. rewrite Hk. reflexivity.
  - intro H. rewrite H. reflexivity.
  - intro H. rewrite H. destruct (deviceIs id r); reflexivity.
  - intros w Hd Hw. rewrite Hd, Hw, rec_get_set, String.eqb_refl. reflexivity.
Qed.

Lemma dd_handler_frame_witness :
  rec_get "temp" (DeviceDashboardStream.handleNewSensorData "dev1"
    [("pH", []); ("temp", [])] sample_reading) = Some [].
Proof.
  exact (proj1 (dd_handler_frame "dev1" [("pH", []); ("temp", [])] sample_reading)
           "temp" ltac:(discriminate)).
Defined.

Lemma In_skipn {A} (x : A) n l : In x (skipn n l) -> In x l.
Proof. intro H. rewrite <- (firstn_skipn n l). apply in_or_app. right. exact H. Qed.

(** After the Dashboard listener, the new reading is the last entry of the
    recent-data list, and every other entry was already in the list and has
    a different (device, sensorType) pair. *)
Theorem dashboard_newest_last (prev : list DashboardStream.DashReading)
    (d : DashboardStream.DashReading) :
  (exists pre, DashboardStream.onNewSensorData prev d = (pre ++ [d])%list) /\
  (forall x, In x (DashboardStream.onNewSensorData prev d) ->
     x = d \/ (In x prev /\
               (DashboardStream.d_device x, DashboardStream.d_sensorType x) <>
               (DashboardStream.d_device d, DashboardStream.d_sensorType d))).
Proof.
  unfold DashboardStream.onNewSensorData, DashboardStream.slice_last.
  set (filtered := filter _ prev).
  rewrite skipn_app, length_app. simpl.
  replace (length filtered + 1 - 50 - length filtered)%nat with 0%nat by lia. simpl.
  split; [eexists; reflexivity|].
  intros x Hx. apply in_app_or in Hx as [Hx|[<-|[]]]; [|left; reflexivity].
  right. apply In_skipn in Hx. unfold filtered in Hx.
  apply filter_In in Hx as [Hin Hp]. split; [exact Hin|].
  intro E. injection E as E1 E2. rewrite E1, E2, !String.eqb_refl in Hp. discriminate.
Qed.

Lemma getItem_hset k k' v s :
  Http.getItem k (RequestAuth.hset k' v s) =
  if String.eqb k' k then Some v else Http.getItem k s.
Proof.
  unfold Http.getItem. induction s as [|[k1 v1] s IH]; simpl.
  - destruct (String.eqb k' k); reflexivity.
  - destruct (String.eqb k' k1) eqn:E1; simpl.
    + apply String.eqb_eq in E1; subst k1. destruct (String.eqb k' k); reflexivity.
    + destruct (String.eqb k1 k) eqn:E2; simpl.
      * apply String.eqb_eq in E2; subst k1. rewrite E1. reflexivity.
      * exact IH.
Qed.

Lemma getItem_removeItem_self k s : Http.getItem k (Http.removeItem k s) = None.
Proof.
  unfold Http.getItem, Http.removeItem. induction s as [|[k1 v1] s IH]; simpl; [reflexivity|].
  destruct (String.eqb k1 k) eqn:E; simpl; [exact IH|]. rewrite E. exact IH.
Qed.

(** After a successful login that stores a user whose serialisation parses
    back to its (non-empty) token, every request gets the header
    [Authorization: Bearer <token>]. *)
Theorem login_then_request_bearer (parseToken : string -> option (option string))
    (stringify : Auth.User -> string) (u : Auth.User) (s h : list (string * string))
    (Hrt : parseToken (stringify u) = Some (Some (Auth.token u)))
    (Hs : stringify u <> "") (Ht : Auth.token u <> "") :
  RequestAuth.onRequest parseToken (RequestAuth.loginStore stringify u s) h =
  RequestAuth.Proceed (RequestAuth.hset "Authorization" ("Bearer " ++ Auth.token u) h).
Proof.
  unfold RequestAuth.onRequest, RequestAuth.loginStore, RequestAuth.setItem.
  rewrite getItem_hset. simpl.
  apply String.eqb_neq in Hs, Ht. rewrite Hs, Hrt, Ht. reflexivity.
Qed.

Lemma login_then_request_bearer_witness :
  RequestAuth.onRequest sample_parse (RequestAuth.loginStore sample_stringify sample_admin []) []
  = RequestAuth.Proceed [("Authorization", "Bearer t")].
Proof.
  exact (login_then_request_bearer sample_parse sample_stringify sample_admin [] []
           eq_refl ltac:(discriminate) ltac:(discriminate)).
Defined.

(** Without a stored user the request interceptor leaves the headers alone;
    so after logout, or after the response interceptor handled a first 401,
    no [Authorization] header is added.  A stored user that does not parse
    makes every request fail. *)
Theorem request_without_stored_user (parseToken : string -> option (option string))
    (s h : list (string * string)) :
  (Http.getItem "user" s = None -> RequestAuth.onRequest parseToken s h = RequestAuth.Proceed h) /\
  RequestAuth.onRequest parseToken (RequestAuth.logoutStore s) h = RequestAuth.Proceed h /\
  (forall b e, Http.status e = Some 401%Z -> Http.retry (Http.config e) = false ->
     RequestAuth.onRequest parseToken (Http.storage (fst (Http.onResponseError b e))) h =
     RequestAuth.Proceed h) /\
  (forall u, Http.getItem "user" s = Some u -> u <> "" -> parseToken u = None ->
     RequestAuth.onRequest parseToken s h = RequestAuth.Fails).
Proof.
  unfold RequestAuth.onRequest. split; [|split; [|split]].
  - intro H. rewrite H. reflexivity.
  - unfold RequestAuth.logoutStore. rewrite getItem_removeItem_self. reflexivity.
  - intros b e H1 H2. unfold Http.onResponseError. rewrite H1, H2. simpl.
    rewrite getItem_removeItem_self. reflexivity.
  - intros u Hu Hne Hp. rewrite Hu. apply String.eqb_neq in Hne. rewrite Hne, Hp. reflexivity.
Qed.

Lemma request_without_stored_user_witness :
  RequestAuth.onRequest sample_parse (Http.storage (fst (Http.onResponseError sample_browser sample_401))) []
  = RequestAuth.Proceed [].
Proof.
  exact (proj1 (proj2 (proj2 (request_without_stored_user sample_parse (Http.storage sample_browser) [])))
           sample_browser sample_401 eq_refl eq_refl).
Defined.


(** Once loading is over, the sidebar always starts with the four common
    links, shows [Users] exactly to those [AdminRoute] admits and
    [Register User] exactly to those [SuperAdminRoute] admits. *)
Theorem nav_matches_guards (a : Auth.AuthState) (Hl : Auth.loading a = false) :
  firstn 4 (Guards.visibleNav a) = ["Dashboard"; "Projects"; "Devices"; "Sensor Data"] /\
  (In "Users" (Guards.visibleNav a) <-> Auth.AdminRoute a = Auth.Children) /\
  (In "Register User" (Guards.visibleNav a) <-> Auth.SuperAdminRoute a = Auth.Children).
Proof.
  destruct a as [[u|] l]; simpl in Hl; subst l;
  unfold Guards.visibleNav, Auth.AdminRoute, Auth.SuperAdminRoute, Auth.isAdmin,
    Auth.isSuperAdmin, Auth.isAuthenticated; simpl.
  - destruct (String.eqb (Auth.role u) "superadmin"), (String.eqb (Auth.role u) "projectadmin");
    simpl; repeat split; intros; try reflexivity; try discriminate; intuition discriminate.
  - repeat split; intros; try discriminate; intuition discriminate.
Qed.

Lemma nav_matches_guards_witness :
  Guards.visibleNav {| Auth.user := Some sample_admin; Auth.loading := false |} =
  ["Dashboard"; "Projects"; "Devices"; "Sensor Data"; "Users"] /\
  Auth.AdminRoute {| Auth.user := Some sample_admin; Auth.loading := false |} = Auth.Children.
Proof.
  split; [reflexivity|].
  apply (nav_matches_guards {| Auth.user := Some sample_admin; Auth.loading := false |} eq_refl).
  simpl. tauto.
Defined.

Lemma lookupValues_tset k k' v m :
  Thresholds.lookupValues k (DeviceThresholdsForm.tset k' v m) =
  if String.eqb k' k then Some v else Thresholds.lookupValues k m.
Proof.
  unfold Thresholds.lookupValues. induction m as [|[k1 v1] m IH]; simpl.
  - destruct (String.eqb k' k); reflexivity.
  - destruct (String.eqb k' k1) eqn:E1; simpl.
    + apply String.eqb_eq in E1; subst k1. destruct (String.eqb k' k); reflexivity.
    + destruct (String.eqb k1 k) eqn:E2; simpl.
      * apply String.eqb_eq in E2; subst k1. rewrite E1. reflexivity.
      * exact IH.
Qed.

Lemma lookupValues_fold (p : DeviceThresholdsForm.ServiceThreshold -> bool) k l acc :
  Thresholds.lookupValues k
    (fold_left (fun acc t => if p t
                             then DeviceThresholdsForm.tset (DeviceThresholdsForm.t_sensorType t)
                                    (DeviceThresholdsForm.t_values t) acc
                             else acc) l acc) =
  match DeviceThresholdsForm.lastFor
          (fun t => p t && String.eqb (DeviceThresholdsForm.t_sensorType t) k) l with
  | Some v => Some v
  | None => Thresholds.lookupValues k acc
  end.
Proof.
  revert acc. induction l as [|t l IH]; intro acc; simpl; [reflexivity|].
  rewrite IH. destruct (DeviceThresholdsForm.lastFor _ l); [reflexivity|].
  destruct (p t); simpl; [|reflexivity].
  rewrite lookupValues_tset. destruct (String.eqb _ k); reflexivity.
Qed.

Lemma lastFor_ext (p q : DeviceThresholdsForm.ServiceThreshold -> bool) l :
  (forall t, p t = q t) -> DeviceThresholdsForm.lastFor p l = DeviceThresholdsForm.lastFor q l.
Proof.
  intro H. induction l as [|t l IH]; simpl; [reflexivity|]. rewrite IH, H. reflexivity.
Qed.

Lemma lastFor_none l : DeviceThresholdsForm.lastFor (fun _ => false) l = None.
Proof. induction l as [|t l IH]; simpl; [reflexivity|]. rewrite IH. reflexivity. Qed.

(** After [fetchThresholds] the form holds, for each listed sensor type,
    the last custom threshold of this device for that type, else the last
    default for it, else nothing; types not listed are absent.  A failing
    [getDeviceThresholds] counts as no custom threshold, a failing
    [getDefaultThresholds] leaves the form as it was. *)
Theorem fetchThresholds_lookup (prev : list (string * Thresholds.ThresholdValues))
    (devId : string) (sensorTypes : list string)
    (ds : list DeviceThresholdsForm.ServiceThreshold)
    (cs : option (list DeviceThresholdsForm.ServiceThreshold)) (k : string) :
  DeviceThresholdsForm.fetchThresholds prev devId sensorTypes None cs = prev /\
  Thresholds.lookupValues k (DeviceThresholdsForm.fetchThresholds prev devId sensorTypes (Some ds) cs) =
  if DeviceThresholdsForm.includes sensorTypes k then
    match DeviceThresholdsForm.lastFor
            (fun t => match DeviceThresholdsForm.t_device t with
                      | Some d => String.eqb d devId | None => false end &&
                      String.eqb (DeviceThresholdsForm.t_sensorType t) k)
            (match cs with Some l => l | None => [] end) with
    | Some v => Some v
    | None => DeviceThresholdsForm.lastFor
                (fun t => String.eqb (DeviceThresholdsForm.t_sensorType t) k) ds
    end
  else None.
Proof.
  split; [reflexivity|].
  assert (Hinit : Thresholds.lookupValues k (DeviceThresholdsForm.initDefaults sensorTypes ds) =
    if DeviceThresholdsForm.includes sensorTypes k
    then DeviceThresholdsForm.lastFor
           (fun t => String.eqb (DeviceThresholdsForm.t_sensorType t) k) ds
    else None).
  { unfold DeviceThresholdsForm.initDefaults.
    rewrite (lookupValues_fold (fun t => DeviceThresholdsForm.includes sensorTypes
                                          (DeviceThresholdsForm.t_sensorType t))).
    destruct (DeviceThresholdsForm.includes sensorTypes k) eqn:Hk.
    - rewrite (lastFor_ext _ (fun t => String.eqb (DeviceThresholdsForm.t_sensorType t) k)).
      + destruct (DeviceThresholdsForm.lastFor _ ds); reflexivity.
      + intro t. destruct (String.eqb (DeviceThresholdsForm.t_sensorType t) k) eqn:E.
        * apply String.eqb_eq in E. rewrite E, Hk. reflexivity.
        * apply andb_false_r.
    - rewrite (lastFor_ext _ (fun _ => false)), lastFor_none; [reflexivity|].
      intro t. destruct (String.eqb (DeviceThresholdsForm.t_sensorType t) k) eqn:E.
      + apply String.eqb_eq in E. rewrite E, Hk. reflexivity.
      + apply andb_false_r. }
  unfold DeviceThresholdsForm.fetchThresholds.
  destruct cs as [l|].
  - unfold DeviceThresholdsForm.applyDevice.
    rewrite (lookupValues_fold (fun t => match DeviceThresholdsForm.t_device t with
                                          | Some d => String.eqb d devId | None => false end &&
                                          DeviceThresholdsForm.includes sensorTypes
                                            (DeviceThresholdsForm.t_sensorType t))).
    rewrite Hinit.
    destruct (DeviceThresholdsForm.includes sensorTypes k) eqn:Hk.
    + rewrite (lastFor_ext _ (fun t => match DeviceThresholdsForm.t_device t with
                                       | Some d => String.eqb d devId | None => false end &&
                                       String.eqb (DeviceThresholdsForm.t_sensorType t) k));
        [reflexivity|].
      intro t. destruct (String.eqb (DeviceThresholdsForm.t_sensorType t) k) eqn:E.
      * apply String.eqb_eq in E. rewrite E, Hk, !andb_true_r. reflexivity.
      * rewrite !andb_false_r. reflexivity.
    + rewrite (lastFor_ext _ (fun _ => false)), lastFor_none; [reflexivity|].
      intro t. destruct (String.eqb (DeviceThresholdsForm.t_sensorType t) k) eqn:E.
      * apply String.eqb_eq in E. rewrite E, Hk, andb_false_r. reflexivity.
      * apply andb_false_r.
  - simpl. rewrite Hinit. destruct (DeviceThresholdsForm.includes sensorTypes k); reflexivity.
Qed.

(** After a successful [handleDeleteThreshold] the selected type is reset to
    its (first) default, so saving next writes exactly those default values;
    the other sensor types of the form are untouched. *)
Theorem delete_then_save_writes_default (ds : list DeviceThresholdsForm.ServiceThreshold)
    (st : Thresholds.DeviceThresholdsState) (d : DeviceThresholdsForm.ServiceThreshold)
    (Hsel : Thresholds.selectedSensorType st <> "")
    (Hd : find (fun t => String.eqb (DeviceThresholdsForm.t_sensorType t)
                          (Thresholds.selectedSensorType st)) ds = Some d) :
  Thresholds.handleDeleteThreshold st =
    [Thresholds.DeleteDeviceThreshold (Thresholds.deviceId st) (Thresholds.selectedSensorType st)] /\
  Thresholds.handleSaveThreshold (DeviceThresholdsForm.afterDeleteThreshold ds st) =
    [Thresholds.UpdateDeviceThreshold (Thresholds.deviceId st) (Thresholds.selectedSensorType st)
       (Some (DeviceThresholdsForm.t_values d))] /\
  (forall k, k <> Thresholds.selectedSensorType st ->
     Thresholds.lookupValues k
       (Thresholds.deviceThresholds (DeviceThresholdsForm.afterDeleteThreshold ds st)) =
     Thresholds.lookupValues k (Thresholds.deviceThresholds st)).
Proof.
  apply String.eqb_neq in Hsel.
  unfold Thresholds.handleDeleteThreshold, Thresholds.handleSaveThreshold,
    DeviceThresholdsForm.afterDeleteThreshold, DeviceThresholdsForm.handleResetToDefault.
  rewrite Hsel, Hd. simpl. rewrite Hsel. split; [reflexivity|split].
  - rewrite lookupValues_tset, String.eqb_refl. reflexivity.
  - intros k Hk. rewrite lookupValues_tset.
    destruct (String.eqb (Thresholds.selectedSensorType st) k) eqn:E; [|reflexivity].
    apply String.eqb_eq in E. congruence.
Qed.

Lemma delete_then_save_writes_default_witness :
  Thresholds.handleSaveThreshold
    (DeviceThresholdsForm.afterDeleteThreshold [sample_default] sample_device_thresholds) =
  [Thresholds.UpdateDeviceThreshold "dev1" "pH" (Some sample_values)].
Proof.
  exact (proj1 (proj2 (delete_then_save_writes_default [sample_default] sample_device_thresholds
                         sample_default ltac:(discriminate) eq_refl))).
Defined.





(** [connectToSocket] is idempotent while the flag is set.  When the
    connection drops ([disconnect] event) and a page calls
    [connectToSocket] again, each such round adds one more [connect],
    [disconnect] and [connect_error] listener: after [n] rounds from the
    start there are [n] of each, and [socket.connect()] was called [n]
    times. *)
Theorem socket_reconnect_accumulates (st : SocketLifecycle.SockState) (n : nat) :
  SocketLifecycle.connectToSocket (SocketLifecycle.connectToSocket st) =
    SocketLifecycle.connectToSocket st /\
  let st' := Nat.iter n SocketLifecycle.connectThenDrop SocketLifecycle.initial in
  SocketLifecycle.isConnected st' = false /\
  SocketLifecycle.listenerCount "connect" st' = n /\
  SocketLifecycle.listenerCount "disconnect" st' = n /\
  SocketLifecycle.listenerCount "connect_error" st' = n /\
  SocketLifecycle.connectCalls st' = n.
Proof.
  split.
  - unfold SocketLifecycle.connectToSocket. destruct (SocketLifecycle.isConnected st) eqn:E;
      [rewrite E; reflexivity | reflexivity].
  - simpl. induction n as [|n IH]; [repeat split|].
    destruct IH as (Hc & H1 & H2 & H3 & H4).
    simpl Nat.iter. set (s := Nat.iter n SocketLifecycle.connectThenDrop SocketLifecycle.initial) in *.
    unfold SocketLifecycle.connectThenDrop, SocketLifecycle.connectToSocket,
      SocketLifecycle.listenerCount in *.
    rewrite Hc. simpl.
    rewrite !filter_app, !length_app. simpl. rewrite H1, H2, H3, H4.
    repeat split; try lia.
    rewrite !fold_left_app. reflexivity.
Qed.

(** [disconnectFromSocket] acts only while the flag is set: then it removes
    every listener, the pages' [new-sensor-data] handlers included, and
    calls [socket.disconnect()].  Once a [disconnect] event has cleared the
    flag it does nothing: the page's handler stays registered and
    [socket.disconnect()] is not called. *)
Theorem disconnect_after_drop (st : SocketLifecycle.SockState) (h : string)
    (Hst : SocketLifecycle.isConnected st = false) :
  let s1 := SocketLifecycle.on "new-sensor-data" h (SocketLifecycle.connectToSocket st) in
  SocketLifecycle.listeners (SocketLifecycle.disconnectFromSocket s1) = [] /\
  SocketLifecycle.disconnectCalls (SocketLifecycle.disconnectFromSocket s1) =
    S (SocketLifecycle.disconnectCalls st) /\
  In ("new-sensor-data", SocketLifecycle.Handler h)
     (SocketLifecycle.listeners
        (SocketLifecycle.disconnectFromSocket (SocketLifecycle.fire "disconnect" s1))) /\
  SocketLifecycle.disconnectCalls
     (SocketLifecycle.disconnectFromSocket (SocketLifecycle.fire "disconnect" s1)) =
    SocketLifecycle.disconnectCalls st.
Proof.
  unfold SocketLifecycle.connectToSocket. rewrite Hst. simpl.
  unfold SocketLifecycle.disconnectFromSocket, SocketLifecycle.fire. simpl.
  rewrite <- !app_assoc, !fold_left_app. simpl.
  repeat split; try reflexivity.
  apply in_or_app. right. simpl. tauto.
Qed.

Lemma disconnect_after_drop_witness :
  In ("new-sensor-data", SocketLifecycle.Handler "h")
     (SocketLifecycle.listeners
        (SocketLifecycle.disconnectFromSocket
           (SocketLifecycle.fire "disconnect"
              (SocketLifecycle.on "new-sensor-data" "h"
                 (SocketLifecycle.connectToSocket SocketLifecycle.initial))))).
Proof.
  exact (proj1 (proj2 (proj2 (disconnect_after_drop SocketLifecycle.initial "h" eq_refl)))).
Defined.

(** In [ThresholdManagement], a successful update keeps the list's length
    and every threshold with another id, and a creation appends at the end;
    deleting an id afterwards gives the same list as deleting it before the
    update or creation of a threshold with that id, and leaves no threshold
    with that id. *)
Theorem management_list_updates (ts : list Thresholds.FormThreshold)
    (u : Thresholds.FormThreshold) (i : string) (Hu : Thresholds.f_id u = Some i) :
  length (ManagementList.afterUpdate ts u) = length ts /\
  (forall t, In t ts -> Thresholds.f_id t <> Some i -> In t (ManagementList.afterUpdate ts u)) /\
  ManagementList.afterDelete (ManagementList.afterUpdate ts u) i = ManagementList.afterDelete ts i /\
  ManagementList.afterDelete (ManagementList.afterCreate ts u) i = ManagementList.afterDelete ts i /\
  (forall t, In t (ManagementList.afterDelete ts i) -> Thresholds.f_id t <> Some i).
Proof.
  assert (Hid : forall t, ManagementList.idEq (Thresholds.f_id t) (Some i) = true <->
                          Thresholds.f_id t = Some i).
  { intro t. destruct (Thresholds.f_id t) as [x|]; simpl; split; intro H;
      try discriminate.
    - apply String.eqb_eq in H. congruence.
    - injection H as ->. apply String.eqb_refl. }
  unfold ManagementList.afterUpdate, ManagementList.afterDelete, ManagementList.afterCreate.
  rewrite Hu. repeat split.
  - apply length_map.
  - intros t Ht Hne. apply in_map_iff. exists t. split; [|exact Ht].
    destruct (ManagementList.idEq (Thresholds.f_id t) (Some i)) eqn:E; [|reflexivity].
    apply Hid in E. contradiction.
  - induction ts as [|t ts IH]; simpl; [reflexivity|].
    destruct (ManagementList.idEq (Thresholds.f_id t) (Some i)) eqn:E; simpl.
    + rewrite Hu. simpl. rewrite String.eqb_refl. simpl. exact IH.
    + rewrite E. simpl. f_equal. exact IH.
  - rewrite filter_app. simpl. rewrite Hu. simpl. rewrite String.eqb_refl. simpl. apply app_nil_r.
  - intros t Ht. apply filter_In in Ht. destruct Ht as [_ Ht].
    intro E. apply Hid in E. rewrite E in Ht. discriminate.
Qed.

Lemma management_list_updates_witness :
  ManagementList.afterDelete
    (ManagementList.afterUpdate [sample_form "a"; sample_form "b"] (sample_form "a")) "a" =
  [sample_form "b"].
Proof.
  exact (eq_trans
    (proj1 (proj2 (proj2 (management_list_updates [sample_form "a"; sample_form "b"]
                            (sample_form "a") "a" eq_refl))))
    eq_refl).
Defined.

Lemma slice_last_snoc {A} n (l : list A) (x : A) :
  (1 <= n)%nat -> exists pre, DashboardStream.slice_last n (l ++ [x])%list = (pre ++ [x])%list.
Proof.
  intro Hn. unfold DashboardStream.slice_last. rewrite skipn_app, length_app. simpl.
  replace (length l + 1 - n - length l)%nat with 0%nat by lia. eexists; reflexivity.
Qed.

(** When a temperature reading arrives on the dashboard, the temperature
    chart afterwards has at most 10 points, one label per value, and ends
    with that reading's value labelled by its time. *)
Theorem temperature_chart_after_reading (toLocaleTimeString : Z -> string)
    (prev : list DashboardStream.DashReading) (d : DashboardStream.DashReading)
    (Ht : DashboardStream.d_sensorType d = "temperature") :
  let rd := DashboardStream.onNewSensorData prev d in
  length (DashboardChart.temperatureLabels toLocaleTimeString rd) =
    length (DashboardChart.temperatureValues rd) /\
  (length (DashboardChart.temperatureValues rd) <= 10)%nat /\
  (exists pre, DashboardChart.temperatureValues rd = (pre ++ [DashboardStream.d_value d])%list) /\
  (exists pre, DashboardChart.temperatureLabels toLocaleTimeString rd =
               (pre ++ [toLocaleTimeString (DashboardStream.d_timestamp d)])%list).
Proof.
  intro rd. unfold DashboardChart.temperatureLabels, DashboardChart.temperatureValues.
  rewrite !length_map. split; [reflexivity|]. split; [apply slice_last_length|].
  assert (Hrd : exists pre, rd = (pre ++ [d])%list).
  { unfold rd, DashboardStream.onNewSensorData. apply slice_last_snoc. lia. }
  destruct Hrd as [pre Hpre]. rewrite Hpre, filter_app. simpl. rewrite Ht. simpl.
  destruct (slice_last_snoc 10
              (filter (fun data => String.eqb (DashboardStream.d_sensorType data) "temperature") pre)
              d ltac:(lia)) as [pre' E].
  rewrite E, !map_app. simpl. split; eexists; reflexivity.
Qed.

Lemma temperature_chart_after_reading_witness :
  DashboardChart.temperatureValues
    (DashboardStream.onNewSensorData []
       {| DashboardStream.d_id := "r"; DashboardStream.d_device := "dev1";
          DashboardStream.d_project := "p"; DashboardStream.d_timestamp := 0;
          DashboardStream.d_sensorType := "temperature"; DashboardStream.d_value := 21;
          DashboardStream.d_unit := "C"; DashboardStream.d_isAlert := false |}) = [21%Q].
Proof.
  destruct (proj1 (proj2 (proj2 (temperature_chart_after_reading (fun _ => "") []
    {| DashboardStream.d_id := "r"; DashboardStream.d_device := "dev1";
       DashboardStream.d_project := "p"; DashboardStream.d_timestamp := 0;
       DashboardStream.d_sensorType := "temperature"; DashboardStream.d_value := 21;
       DashboardStream.d_unit := "C"; DashboardStream.d_isAlert := false |} eq_refl))))
    as [pre E].
  reflexivity.
Defined.

(** The Excel export refuses exactly the inputs the CSV export refuses (no
    array, or an empty one).  Otherwise it writes one row per reading whose
    keys are the CSV header and whose cells, rendered as text, are the CSV
    row of that reading; the file names differ only in the extension. *)
Theorem excel_matches_csv (toLocaleString : Z -> string) (numberToString : Q -> string)
    (isoDate selectedSensorType : string) (sensorData : CsvExport.JsValue) :
  match CsvExport.exportToCSV toLocaleString numberToString isoDate selectedSensorType sensorData,
        ExcelExport.exportToExcel toLocaleString isoDate selectedSensorType sensorData with
  | CsvExport.ToastError m1, ExcelExport.ExcelToastError m2 => m1 = m2
  | CsvExport.SaveAs _ f1, ExcelExport.WriteFile rows f2 =>
      (exists l, sensorData = CsvExport.JArray l /\ length rows = length l /\
         forall r, In r l ->
           map fst (ExcelExport.excelRow toLocaleString r) = CsvExport.csvHeader /\
           map (fun c => ExcelExport.cellText numberToString (snd c))
               (ExcelExport.excelRow toLocaleString r) =
           CsvExport.csvRow toLocaleString numberToString r) /\
      f1 = ("sensor-data-" ++ selectedSensorType ++ "-" ++ isoDate ++ ".csv") /\
      f2 = ("sensor-data-" ++ selectedSensorType ++ "-" ++ isoDate ++ ".xlsx")
  | _, _ => False
  end.
Proof.
  destruct sensorData as [[|r0 l]|]; simpl; try reflexivity.
  split; [|split; reflexivity].
  exists (r0 :: l). split; [reflexivity|]. split; [rewrite length_map; reflexivity|].
  intros r _. split; reflexivity.
Qed.

(** With a device and sensor type selected, the thresholds shown come from
    the first of device, project (when one is selected) and defaults that
    has one for the sensor type; the defaults are requested only when the
    earlier sources have none.  When none has one, or a request fails, the
    previous thresholds are kept, whatever sensor type they were for. *)
Theorem sensor_thresholds_precedence (sel dev proj : string)
    (dr pr fr : option (list DeviceThresholdsForm.ServiceThreshold))
    (prev : option Thresholds.ThresholdValues)
    (Hsel : sel <> "") (Hdev : dev <> "") :
  (forall ds v, dr = Some ds -> SensorDataThresholds.pick sel ds = Some v ->
     SensorDataThresholds.fetchThresholds sel dev proj dr pr fr prev =
     ([SensorDataThresholds.GetDeviceThresholds dev], Some v)) /\
  (forall ds ps v, dr = Some ds -> SensorDataThresholds.pick sel ds = None -> proj <> "" ->
     pr = Some ps -> SensorDataThresholds.pick sel ps = Some v ->
     snd (SensorDataThresholds.fetchThresholds sel dev proj dr pr fr prev) = Some v /\
     ~ In SensorDataThresholds.GetDefaultThresholds
         (fst (SensorDataThresholds.fetchThresholds sel dev proj dr pr fr prev))) /\
  ((dr = None \/ exists ds, dr = Some ds /\ SensorDataThresholds.pick sel ds = None) ->
   (proj = "" \/ pr = None \/ exists ps, pr = Some ps /\ SensorDataThresholds.pick sel ps = None) ->
   (fr = None \/ exists fs, fr = Some fs /\ SensorDataThresholds.pick sel fs = None) ->
   snd (SensorDataThresholds.fetchThresholds sel dev proj dr pr fr prev) = prev).
Proof.
  apply String.eqb_neq in Hsel, Hdev.
  unfold SensorDataThresholds.fetchThresholds. rewrite Hsel, Hdev. simpl.
  split; [|split].
  - intros ds v -> Hv. rewrite Hv. reflexivity.
  - intros ds ps v -> Hd Hp -> Hv. rewrite Hd.
    apply String.eqb_neq in Hp. rewrite Hp, Hv. simpl. split; [reflexivity|].
    intros [H|[H|[]]]; discriminate.
  - intros Hd Hp Hf.
    destruct Hd as [->|(ds & -> & Hd)]; [reflexivity|]. rewrite Hd.
    destruct (String.eqb proj "") eqn:Ep.
    + destruct Hf as [->|(fs & -> & Hf)]; simpl; [reflexivity|]. rewrite Hf. reflexivity.
    + destruct Hp as [Hp|[->|(ps & -> & Hp)]].
      * rewrite Hp in Ep. discriminate.
      * reflexivity.
      * rewrite Hp. destruct Hf as [->|(fs & -> & Hf)]; simpl; [reflexivity|].
        rewrite Hf. reflexivity.
Qed.

Lemma sensor_thresholds_precedence_witness :
  snd (SensorDataThresholds.fetchThresholds "temperature" "dev1" "" (Some [sample_default])
         None (Some []) (Some sample_values)) = Some sample_values.
Proof.
  exact (proj2 (proj2 (sensor_thresholds_precedence "temperature" "dev1" ""
    (Some [sample_default]) None (Some []) (Some sample_values)
    ltac:(discriminate) ltac:(discriminate)))
    (or_intror (ex_intro _ [sample_default] (conj eq_refl eq_refl)))
    (or_introl eq_refl)
    (or_intror (ex_intro _ [] (conj eq_refl eq_refl)))).
Defined.



Lemma lookupValues_fold_pick (f : string -> option Thresholds.ThresholdValues) k l acc :
  Thresholds.lookupValues k
    (fold_left (fun acc x => match f x with
                             | Some v => DeviceThresholdsForm.tset x v acc
                             | None => acc
                             end) l acc) =
  if existsb (String.eqb k) l
  then match f k with Some v => Some v | None => Thresholds.lookupValues k acc end
  else Thresholds.lookupValues k acc.
Proof.
  revert acc. induction l as [|x l IH]; intro acc; simpl; [reflexivity|].
  rewrite IH.
  destruct (String.eqb k x) eqn:Ex; simpl.
  - apply String.eqb_eq in Ex. subst x.
    destruct (existsb (String.eqb k) l);
      destruct (f k) eqn:Ef; try reflexivity;
      rewrite lookupValues_tset, String.eqb_refl; reflexivity.
  - assert (Hx : forall acc', Thresholds.lookupValues k
               (match f x with Some v => DeviceThresholdsForm.tset x v acc' | None => acc' end) =
               Thresholds.lookupValues k acc').
    { intro acc'. destruct (f x); [|reflexivity]. rewrite lookupValues_tset.
      rewrite String.eqb_sym, Ex. reflexivity. }
    destruct (existsb (String.eqb k) l); [destruct (f k)|]; rewrite ?Hx; reflexivity.
Qed.

Lemma fold_left_ext_step {A B} (f g : A -> B -> A) (l : list B) (a : A) :
  (forall a x, f a x = g a x) -> fold_left f l a = fold_left g l a.
Proof.
  intro H. revert a. induction l as [|x l IH]; intro a; simpl; [reflexivity|].
  rewrite H. apply IH.
Qed.

(** DeviceDashboard gives each sensor type of the device its device
    threshold, else its default, and never consults project thresholds.
    So when the device has none for a type and the selected project has
    one, SensorData uses the project's threshold while DeviceDashboard
    uses the default (or none). *)
Theorem dashboard_ignores_project_thresholds (sensorTypes : list string)
    (ds fs : list DeviceThresholdsForm.ServiceThreshold) (k : string) :
  Thresholds.lookupValues k (DeviceDashboardThresholds.thresholdsData sensorTypes ds fs) =
    (if existsb (String.eqb k) sensorTypes
     then match SensorDataThresholds.pick k ds with
          | Some v => Some v
          | None => SensorDataThresholds.pick k fs
          end
     else None) /\
  (forall dev proj ps v prev, dev <> "" -> k <> "" -> proj <> "" ->
     SensorDataThresholds.pick k ds = None -> SensorDataThresholds.pick k ps = Some v ->
     In k sensorTypes ->
     snd (SensorDataThresholds.fetchThresholds k dev proj (Some ds) (Some ps) (Some fs) prev) = Some v /\
     Thresholds.lookupValues k (DeviceDashboardThresholds.thresholdsData sensorTypes ds fs) =
       SensorDataThresholds.pick k fs).
Proof.
  assert (Hl : Thresholds.lookupValues k (DeviceDashboardThresholds.thresholdsData sensorTypes ds fs) =
    (if existsb (String.eqb k) sensorTypes
     then match SensorDataThresholds.pick k ds with
          | Some v => Some v
          | None => SensorDataThresholds.pick k fs
          end
     else None)).
  { unfold DeviceDashboardThresholds.thresholdsData.
    rewrite (fold_left_ext_step _ (fun acc x =>
               match match SensorDataThresholds.pick x ds with
                     | Some v => Some v
                     | None => SensorDataThresholds.pick x fs
                     end with
               | Some v => DeviceThresholdsForm.tset x v acc
               | None => acc
               end));
      [|intros acc x; destruct (SensorDataThresholds.pick x ds); [reflexivity|];
        destruct (SensorDataThresholds.pick x fs); reflexivity].
    rewrite (lookupValues_fold_pick (fun sensorType =>
               match SensorDataThresholds.pick sensorType ds with
               | Some v => Some v
               | None => SensorDataThresholds.pick sensorType fs
               end)).
    - destruct (existsb (String.eqb k) sensorTypes); [|reflexivity].
      destruct (SensorDataThresholds.pick k ds); [reflexivity|].
      destruct (SensorDataThresholds.pick k fs); reflexivity. }
  split; [exact Hl|].
  intros dev proj ps v prev Hdev Hk Hproj Hd Hp Hin.
  split.
  - unfold SensorDataThresholds.fetchThresholds.
    apply String.eqb_neq in Hdev, Hk, Hproj. rewrite Hk, Hdev, Hd, Hproj, Hp. reflexivity.
  - rewrite Hl, Hd.
    assert (E : existsb (String.eqb k) sensorTypes = true).
    { apply existsb_exists. exists k. split; [exact Hin | apply String.eqb_refl]. }
    rewrite E. reflexivity.
Qed.

Lemma dashboard_ignores_project_thresholds_witness :
  snd (SensorDataThresholds.fetchThresholds "pH" "dev1" "proj1" (Some []) (Some [sample_default])
         (Some []) None) = Some sample_values /\
  Thresholds.lookupValues "pH" (DeviceDashboardThresholds.thresholdsData ["pH"] [] []) = None.
Proof.
  exact (proj2 (dashboard_ignores_project_thresholds ["pH"] [] [] "pH")
           "dev1" "proj1" [sample_default] sample_values None
           ltac:(discriminate) ltac:(discriminate) ltac:(discriminate)
           eq_refl eq_refl (or_introl eq_refl)).
Defined.
